(** * The tag and metadata client of the Dify dataset SDK

    A shallow embedding of [dify_dataset_sdk/tags/models.py] (the pydantic
    schemas) and [dify_dataset_sdk/tags/client.py] (the [TagsClient] facade),
    followed by the properties of the facade.

    - Python values that travel as JSON are the inductive [pyval]; a Python
      [dict] with string keys is a [gmap string pyval], so two dicts with the
      same content are equal.
    - A Python [str] is a [string]; its elements stand for the characters
      that [len] counts.
    - A schema class is a record; constructing it from keyword arguments is
      a function into [result], which either gives the instance or the
      exception that the constructor raises.
    - A client method is a computation [Client A]: a tree whose nodes are
      the calls to the injected transport ([self._client]).  [run]
      interprets it against any transport and records the calls made.
    - The arguments of a method have the types of its annotations
      ([str], [List[str]], a list of mappings or [DocumentMetadata]
      instances); what the transport returns is any [pyval]. *)

From Stdlib Require Import ZArith Ascii String List Lia.
From Stdlib Require Import Floats.SpecFloat.
From stdpp Require Import gmap strings list fin_maps.

#[local] Set Warnings "-register-all".
#[local] Open Scope string_scope.

(** ** Python values *)

(** What [json.loads] produces and [json.dumps] consumes.  A float is
    its IEEE 754 value. *)
Inductive pyval : Type :=
| PNone
| PBool (b : bool)
| PInt (z : Z)
| PFloat (f : spec_float)
| PStr (s : string)
| PList (l : list pyval)
| PDict (m : gmap string pyval).

Abbreviation pydict := (gmap string pyval).

(** ** Exceptions and results *)

(** Modelled from the spec: the typed errors of the transport ([BaseClient],
    module [_base], which is not among these sources).  The spec names a
    not-found error, a validation error reported by the server and a generic
    API error; the docstrings of [client.py] call them [DifyNotFoundError],
    [DifyValidationError] and [DifyAPIError]. *)
Inductive transport_error : Type :=
| DifyNotFoundError (msg : string)
| DifyValidationError (msg : string)
| DifyAPIError (msg : string).

(** [ValidationError] is pydantic's: a schema constructor rejected its
    input.  [TypeError] and [AttributeError] are Python's own. *)
Inductive exn : Type :=
| ValidationError
| TypeError
| AttributeError
| TransportError (e : transport_error).

Inductive result (A : Type) : Type :=
| Ok (a : A)
| Raised (e : exn).
Arguments Ok {A} a.
Arguments Raised {A} e.

#[global] Instance result_ret : MRet result := @Ok.
#[global] Instance result_bind : MBind result := λ A B f r,
  match r with
  | Ok a => f a
  | Raised e => Raised e
  end.
#[global] Instance result_fmap : FMap result := λ A B f r,
  match r with
  | Ok a => Ok (f a)
  | Raised e => Raised e
  end.

Definition is_ok {A} (r : result A) : bool :=
  match r with
  | Ok _ => true
  | Raised _ => false
  end.

(** ** Field schemas (pydantic, lax mode) *)

(** Pydantic's lax mode also reads an integer or a boolean out of some
    strings and floats.  Which ones is the library's business; no schema
    of [models.py] constrains it, so the table is a parameter. *)
Class LaxCoercion : Type := {
  str_as_int : string → option Z;
  float_as_int : spec_float → option Z;
  str_as_bool : string → option bool;
  float_as_bool : spec_float → option bool
}.

Section schemas.
Context {lax : LaxCoercion}.

Definition coerced {A} (o : option A) : result A :=
  match o with
  | Some a => Ok a
  | None => Raised ValidationError
  end.

(** [str], optionally with [max_length]. *)
Definition str_schema (max_length : option nat) (v : pyval) : result string :=
  match v with
  | PStr s =>
      match max_length with
      | Some n => if (n <? String.length s)%nat then Raised ValidationError else Ok s
      | None => Ok s
      end
  | _ => Raised ValidationError
  end.

(** [int]. *)
Definition int_schema (v : pyval) : result Z :=
  match v with
  | PInt z => Ok z
  | PBool b => Ok (Z.b2z b)
  | PStr s => coerced (str_as_int s)
  | PFloat f => coerced (float_as_int f)
  | _ => Raised ValidationError
  end.

(** [bool]. *)
Definition bool_schema (v : pyval) : result bool :=
  match v with
  | PBool b => Ok b
  | PInt 0 => Ok false
  | PInt 1 => Ok true
  | PStr s => coerced (str_as_bool s)
  | PFloat f => coerced (float_as_bool f)
  | _ => Raised ValidationError
  end.

(** [Optional[T]]. *)
Definition nullable {A} (schema : pyval → result A) (v : pyval) : result (option A) :=
  match v with
  | PNone => Ok None
  | _ => Some <$> schema v
  end.

(** [List[T]]: the items are validated in order. *)
Definition list_schema {A} (items : pyval → result A) (v : pyval) : result (list A) :=
  match v with
  | PList l => mapM items l
  | _ => Raised ValidationError
  end.

(** A field whose type is a schema class, given as a mapping. *)
Definition model_schema {A} (init : pydict → result A) (v : pyval) : result A :=
  match v with
  | PDict m => init m
  | _ => Raised ValidationError
  end.

(** A field declared [Field(description=...)]: it has no default. *)
Definition required {A} (data : pydict) (key : string) (schema : pyval → result A) : result A :=
  match data !! key with
  | Some v => schema v
  | None => Raised ValidationError
  end.

(** A field declared [Field(default, ...)]: the default is not validated. *)
Definition with_default {A} (data : pydict) (key : string) (schema : pyval → result A)
    (default : A) : result A :=
  match data !! key with
  | Some v => schema v
  | None => Ok default
  end.

End schemas.

(** ** The schema classes of [models.py] *)

Module KnowledgeTag.
Record t : Type := mk {
  id : string;
  name : string;
  color : option string;
  created_at : option Z;
  updated_at : option Z;
  binding_count : option Z
}.
End KnowledgeTag.

Module CreateKnowledgeTagRequest.
Record t : Type := mk { name : string }.
End CreateKnowledgeTagRequest.

Module UpdateKnowledgeTagRequest.
Record t : Type := mk { name : string; tag_id : string }.
End UpdateKnowledgeTagRequest.

Module DeleteKnowledgeTagRequest.
Record t : Type := mk { tag_id : string }.
End DeleteKnowledgeTagRequest.

Module BindDatasetToTagRequest.
Record t : Type := mk { tag_ids : list string; target_id : string }.
End BindDatasetToTagRequest.

Module UnbindDatasetFromTagRequest.
Record t : Type := mk { tag_id : string; target_id : string }.
End UnbindDatasetFromTagRequest.

Module Metadata.
Record t : Type := mk {
  id : string;
  type : string;
  name : string;
  use_count : option Z
}.
End Metadata.

Module MetadataValue.
Record t : Type := mk { id : string; value : string; name : string }.
End MetadataValue.

Module DocumentMetadata.
Record t : Type := mk { document_id : string; metadata_list : list MetadataValue.t }.
End DocumentMetadata.

Module CreateMetadataRequest.
Record t : Type := mk { type : string; name : string }.
End CreateMetadataRequest.

Module UpdateMetadataRequest.
Record t : Type := mk { name : string }.
End UpdateMetadataRequest.

Module UpdateDocumentMetadataRequest.
Record t : Type := mk { operation_data : list DocumentMetadata.t }.
End UpdateDocumentMetadataRequest.

Module MetadataListResponse.
Record t : Type := mk { doc_metadata : list Metadata.t; built_in_field_enabled : bool }.
End MetadataListResponse.

(** *** Construction from keyword arguments

    Every class ignores extra keys: only the declared keys are looked
    up, whatever else [data] holds. *)

Section models.
Context {lax : LaxCoercion}.

Definition KnowledgeTag_init (data : pydict) : result KnowledgeTag.t :=
  id ← required data "id" (str_schema None);
  name ← required data "name" (str_schema None);
  color ← with_default data "color" (nullable (str_schema None)) None;
  created_at ← with_default data "created_at" (nullable int_schema) None;
  updated_at ← with_default data "updated_at" (nullable int_schema) None;
  binding_count ← with_default data "binding_count" (nullable int_schema) None;
  mret (KnowledgeTag.mk id name color created_at updated_at binding_count).

Definition CreateKnowledgeTagRequest_init (data : pydict) : result CreateKnowledgeTagRequest.t :=
  name ← required data "name" (str_schema (Some 50%nat));
  mret (CreateKnowledgeTagRequest.mk name).

Definition UpdateKnowledgeTagRequest_init (data : pydict) : result UpdateKnowledgeTagRequest.t :=
  name ← required data "name" (str_schema (Some 50%nat));
  tag_id ← required data "tag_id" (str_schema None);
  mret (UpdateKnowledgeTagRequest.mk name tag_id).

Definition DeleteKnowledgeTagRequest_init (data : pydict) : result DeleteKnowledgeTagRequest.t :=
  tag_id ← required data "tag_id" (str_schema None);
  mret (DeleteKnowledgeTagRequest.mk tag_id).

Definition BindDatasetToTagRequest_init (data : pydict) : result BindDatasetToTagRequest.t :=
  tag_ids ← required data "tag_ids" (list_schema (str_schema None));
  target_id ← required data "target_id" (str_schema None);
  mret (BindDatasetToTagRequest.mk tag_ids target_id).

Definition UnbindDatasetFromTagRequest_init (data : pydict) : result UnbindDatasetFromTagRequest.t :=
  tag_id ← required data "tag_id" (str_schema None);
  target_id ← required data "target_id" (str_schema None);
  mret (UnbindDatasetFromTagRequest.mk tag_id target_id).

Definition Metadata_init (data : pydict) : result Metadata.t :=
  id ← required data "id" (str_schema None);
  type ← required data "type" (str_schema None);
  name ← required data "name" (str_schema None);
  use_count ← with_default data "use_count" (nullable int_schema) None;
  mret (Metadata.mk id type name use_count).

Definition MetadataValue_init (data : pydict) : result MetadataValue.t :=
  id ← required data "id" (str_schema None);
  value ← required data "value" (str_schema None);
  name ← required data "name" (str_schema None);
  mret (MetadataValue.mk id value name).

Definition DocumentMetadata_init (data : pydict) : result DocumentMetadata.t :=
  document_id ← required data "document_id" (str_schema None);
  metadata_list ← required data "metadata_list" (list_schema (model_schema MetadataValue_init));
  mret (DocumentMetadata.mk document_id metadata_list).

Definition CreateMetadataRequest_init (data : pydict) : result CreateMetadataRequest.t :=
  type ← required data "type" (str_schema None);
  name ← required data "name" (str_schema None);
  mret (CreateMetadataRequest.mk type name).

Definition UpdateMetadataRequest_init (data : pydict) : result UpdateMetadataRequest.t :=
  name ← required data "name" (str_schema None);
  mret (UpdateMetadataRequest.mk name).

(** [operation_data] is given as instances of [DocumentMetadata]; pydantic
    takes an instance of the field's own class as it is. *)
Definition UpdateDocumentMetadataRequest_init (operation_data : list DocumentMetadata.t)
    : result UpdateDocumentMetadataRequest.t :=
  mret (UpdateDocumentMetadataRequest.mk operation_data).

Definition MetadataListResponse_init (data : pydict) : result MetadataListResponse.t :=
  doc_metadata ← required data "doc_metadata" (list_schema (model_schema Metadata_init));
  built_in_field_enabled ← required data "built_in_field_enabled" bool_schema;
  mret (MetadataListResponse.mk doc_metadata built_in_field_enabled).

End models.

(** *** Serialization: [model_dump()], keyed by the declared field names *)

Definition CreateKnowledgeTagRequest_model_dump (r : CreateKnowledgeTagRequest.t) : pyval :=
  PDict {[ "name" := PStr (CreateKnowledgeTagRequest.name r) ]}.

Definition UpdateKnowledgeTagRequest_model_dump (r : UpdateKnowledgeTagRequest.t) : pyval :=
  PDict {[ "name" := PStr (UpdateKnowledgeTagRequest.name r);
           "tag_id" := PStr (UpdateKnowledgeTagRequest.tag_id r) ]}.

Definition DeleteKnowledgeTagRequest_model_dump (r : DeleteKnowledgeTagRequest.t) : pyval :=
  PDict {[ "tag_id" := PStr (DeleteKnowledgeTagRequest.tag_id r) ]}.

Definition BindDatasetToTagRequest_model_dump (r : BindDatasetToTagRequest.t) : pyval :=
  PDict {[ "tag_ids" := PList (PStr <$> BindDatasetToTagRequest.tag_ids r);
           "target_id" := PStr (BindDatasetToTagRequest.target_id r) ]}.

Definition UnbindDatasetFromTagRequest_model_dump (r : UnbindDatasetFromTagRequest.t) : pyval :=
  PDict {[ "tag_id" := PStr (UnbindDatasetFromTagRequest.tag_id r);
           "target_id" := PStr (UnbindDatasetFromTagRequest.target_id r) ]}.

Definition MetadataValue_model_dump (v : MetadataValue.t) : pyval :=
  PDict {[ "id" := PStr (MetadataValue.id v);
           "value" := PStr (MetadataValue.value v);
           "name" := PStr (MetadataValue.name v) ]}.

Definition DocumentMetadata_model_dump (d : DocumentMetadata.t) : pyval :=
  PDict {[ "document_id" := PStr (DocumentMetadata.document_id d);
           "metadata_list" :=
             PList (MetadataValue_model_dump <$> DocumentMetadata.metadata_list d) ]}.

Definition CreateMetadataRequest_model_dump (r : CreateMetadataRequest.t) : pyval :=
  PDict {[ "type" := PStr (CreateMetadataRequest.type r);
           "name" := PStr (CreateMetadataRequest.name r) ]}.

Definition UpdateMetadataRequest_model_dump (r : UpdateMetadataRequest.t) : pyval :=
  PDict {[ "name" := PStr (UpdateMetadataRequest.name r) ]}.

Definition UpdateDocumentMetadataRequest_model_dump (r : UpdateDocumentMetadataRequest.t) : pyval :=
  PDict {[ "operation_data" :=
             PList (DocumentMetadata_model_dump <$> UpdateDocumentMetadataRequest.operation_data r) ]}.

(** ** The transport and client computations *)

Inductive verb : Type := GET | POST | PATCH | DELETE.

(** One call on the transport: the method called, the path, and the
    [json] keyword argument when the caller passes one. *)
Record request : Type := Request {
  method : verb;
  path : string;
  json : option pyval
}.

(** A computation of the facade: it returns, raises, or calls the
    transport and goes on with what the transport answered, a raised
    error or the parsed JSON. *)
Inductive Client (A : Type) : Type :=
| Return (a : A)
| Raise (e : exn)
| Call (r : request) (k : transport_error + pyval → Client A).
Arguments Return {A} a.
Arguments Raise {A} e.
Arguments Call {A} r k.

Fixpoint Client_bind {A B} (f : A → Client B) (c : Client A) : Client B :=
  match c with
  | Return a => f a
  | Raise e => Raise e
  | Call r k => Call r (λ answer, Client_bind f (k answer))
  end.

#[global] Instance Client_ret : MRet Client := @Return.
#[global] Instance Client_mbind : MBind Client := @Client_bind.

(** A constructor or a built-in evaluated inside a method. *)
Definition lift {A} (r : result A) : Client A :=
  match r with
  | Ok a => Return a
  | Raised e => Raise e
  end.

Module BaseClient.

(** Modelled from the spec: the methods [get], [post], [patch] and [delete]
    of the transport ([BaseClient], not among these sources).  Each performs
    one request and returns the parsed JSON or raises a typed error. *)
Definition send (r : request) : Client pyval :=
  Call r (λ answer,
    match answer with
    | inl e => Raise (TransportError e)
    | inr v => Return v
    end).

Definition get (path : string) : Client pyval :=
  send (Request GET path None).

Definition post (path : string) (json : option pyval) : Client pyval :=
  send (Request POST path json).

Definition patch (path : string) (json : option pyval) : Client pyval :=
  send (Request PATCH path json).

Definition delete (path : string) (json : option pyval) : Client pyval :=
  send (Request DELETE path json).

End BaseClient.

(** A transport is anything that answers requests, with a state of its
    own (the server, the connection). *)
Definition transport (S : Type) : Type := S → request → S * (transport_error + pyval).

Record outcome (S A : Type) : Type := Outcome {
  final : S;
  calls : list request;
  value : result A
}.
Arguments Outcome {S A} final calls value.
Arguments final {S A} o.
Arguments calls {S A} o.
Arguments value {S A} o.

Fixpoint run {S A} (t : transport S) (s : S) (c : Client A) : outcome S A :=
  match c with
  | Return a => Outcome s [] (Ok a)
  | Raise e => Outcome s [] (Raised e)
  | Call r k =>
      let '(s', answer) := t s r in
      let o := run t s' (k answer) in
      Outcome (final o) (r :: calls o) (value o)
  end.

(** ** Python built-ins used by [client.py] *)

(** Keyword unpacking, as in [KnowledgeTag( ** response)]: the unpacked
    value must be a mapping. *)
Definition kwargs (v : pyval) : result pydict :=
  match v with
  | PDict m => Ok m
  | _ => Raised TypeError
  end.

(** [v.get(key, default)]: only a dict has the method. *)
Definition py_get (v : pyval) (key : string) (default : pyval) : result pyval :=
  match v with
  | PDict m => Ok (from_option id default (m !! key))
  | _ => Raised AttributeError
  end.

(** [for x in v]: a list gives its items, a string its characters, a dict
    its keys.  (Python gives the keys in insertion order; here they come in
    the order of the map, which no method can tell apart, every key being a
    string.) *)
Definition py_iter (v : pyval) : result (list pyval) :=
  match v with
  | PList l => Ok l
  | PStr s => Ok ((λ c, PStr (String c EmptyString)) <$> list_ascii_of_string s)
  | PDict m => Ok (PStr <$> (map_to_list m).*1)
  | _ => Raised TypeError
  end.

(** ** The facade: [TagsClient] *)

(** An item of [operation_data]: a raw mapping or an instance of
    [DocumentMetadata], the two cases of the parameter's annotation and of
    the [isinstance(item, dict)] test. *)
Inductive operation_item : Type :=
| RawItem (item : pydict)
| ModelItem (item : DocumentMetadata.t).

Module TagsClient.
Section methods.
Context {lax : LaxCoercion}.

Definition create (name : string) : Client KnowledgeTag.t :=
  request ← lift (CreateKnowledgeTagRequest_init {[ "name" := PStr name ]});
  response ← BaseClient.post "/v1/datasets/tags"
               (Some (CreateKnowledgeTagRequest_model_dump request));
  lift (kwargs response ≫= KnowledgeTag_init).

Definition list_ : Client (list KnowledgeTag.t) :=
  response ← BaseClient.get "/v1/datasets/tags";
  match response with
  | PList tags => lift (mapM (λ tag, kwargs tag ≫= KnowledgeTag_init) tags)
  | _ =>
      lift (data ← py_get response "data" (PList []);
            tags ← py_iter data;
            mapM (λ tag, kwargs tag ≫= KnowledgeTag_init) tags)
  end.

Definition update (tag_id name : string) : Client KnowledgeTag.t :=
  request ← lift (UpdateKnowledgeTagRequest_init
                    {[ "name" := PStr name; "tag_id" := PStr tag_id ]});
  response ← BaseClient.patch "/v1/datasets/tags"
               (Some (UpdateKnowledgeTagRequest_model_dump request));
  lift (kwargs response ≫= KnowledgeTag_init).

Definition delete (tag_id : string) : Client pyval :=
  request ← lift (DeleteKnowledgeTagRequest_init {[ "tag_id" := PStr tag_id ]});
  BaseClient.delete "/v1/datasets/tags"
    (Some (DeleteKnowledgeTagRequest_model_dump request)).

Definition bind_to_dataset (dataset_id : string) (tag_ids : list string) : Client pyval :=
  request ← lift (BindDatasetToTagRequest_init
                    {[ "tag_ids" := PList (PStr <$> tag_ids);
                       "target_id" := PStr dataset_id ]});
  BaseClient.post "/v1/datasets/tags/binding"
    (Some (BindDatasetToTagRequest_model_dump request)).

Definition unbind_from_dataset (dataset_id tag_id : string) : Client pyval :=
  request ← lift (UnbindDatasetFromTagRequest_init
                    {[ "tag_id" := PStr tag_id; "target_id" := PStr dataset_id ]});
  BaseClient.post "/v1/datasets/tags/unbinding"
    (Some (UnbindDatasetFromTagRequest_model_dump request)).

Definition get_dataset_tags (dataset_id : string) : Client (list KnowledgeTag.t) :=
  response ← BaseClient.get ("/v1/datasets/" +:+ dataset_id +:+ "/tags");
  match response with
  | PList tags => lift (mapM (λ tag, kwargs tag ≫= KnowledgeTag_init) tags)
  | _ =>
      lift (data ← py_get response "data" (PList []);
            tags ← py_iter data;
            mapM (λ tag, kwargs tag ≫= KnowledgeTag_init) tags)
  end.

Definition create_metadata (dataset_id field_type name : string) : Client Metadata.t :=
  request ← lift (CreateMetadataRequest_init
                    {[ "type" := PStr field_type; "name" := PStr name ]});
  response ← BaseClient.post ("/v1/datasets/" +:+ dataset_id +:+ "/metadata")
               (Some (CreateMetadataRequest_model_dump request));
  lift (kwargs response ≫= Metadata_init).

Definition update_metadata (dataset_id metadata_id name : string) : Client Metadata.t :=
  request ← lift (UpdateMetadataRequest_init {[ "name" := PStr name ]});
  response ← BaseClient.patch
               ("/v1/datasets/" +:+ dataset_id +:+ "/metadata/" +:+ metadata_id)
               (Some (UpdateMetadataRequest_model_dump request));
  lift (kwargs response ≫= Metadata_init).

Definition delete_metadata (dataset_id metadata_id : string) : Client pyval :=
  BaseClient.delete ("/v1/datasets/" +:+ dataset_id +:+ "/metadata/" +:+ metadata_id) None.

Definition toggle_built_in_metadata (dataset_id action : string) : Client pyval :=
  BaseClient.post ("/v1/datasets/" +:+ dataset_id +:+ "/metadata/built-in/" +:+ action) None.

Definition update_document_metadata (dataset_id : string)
    (operation_data : list operation_item) : Client pyval :=
  converted_data ← lift (mapM (λ item,
                      match item with
                      | RawItem item => DocumentMetadata_init item
                      | ModelItem item => Ok item
                      end) operation_data);
  request ← lift (UpdateDocumentMetadataRequest_init converted_data);
  BaseClient.post ("/v1/datasets/" +:+ dataset_id +:+ "/documents/metadata")
    (Some (UpdateDocumentMetadataRequest_model_dump request)).

Definition list_metadata (dataset_id : string) : Client MetadataListResponse.t :=
  response ← BaseClient.get ("/v1/datasets/" +:+ dataset_id +:+ "/metadata");
  lift (kwargs response ≫= MetadataListResponse_init).

End methods.
End TagsClient.

(** ** Running a method against a transport *)

(** [answers t s r s' a]: in state [s] the transport answers request [r]
    with [a] (a raised error or a parsed value) and moves to [s']. *)
Definition answers {S} (t : transport S) (s : S) (r : request) (s' : S)
    (a : transport_error + pyval) : Prop :=
  t s r = (s', a).

(** A method fails locally when, whatever the transport, it raises [e]
    without having called it. *)
Definition fails_locally {A} (c : Client A) (e : exn) : Prop :=
  ∀ S (t : transport S) (s : S), run t s c = Outcome s [] (Raised e).

(** A method passes its local validation when it does not raise before it
    reaches the transport. *)
Definition passes_local_validation {A} (c : Client A) : Prop :=
  ∀ e, c ≠ Raise e.

(** A transport without state that answers every request with [v]. *)
Definition always (v : pyval) : transport unit := λ s _, (s, inr v).

(** A transport without state that raises [e] on every request. *)
Definition failing (e : transport_error) : transport unit := λ s _, (s, inl e).

(** A coercion table to run the examples with: strings of decimal digits
    are integers, nothing else is coerced. *)
Fixpoint digits_as_N (acc : N) (s : string) : option N :=
  match s with
  | EmptyString => Some acc
  | String c s' =>
      let n := N_of_ascii c in
      if ((48 <=? n) && (n <=? 57))%N then digits_as_N (acc * 10 + (n - 48)) s' else None
  end.

#[local] Instance digits_coercion : LaxCoercion := {|
  str_as_int s := match s with EmptyString => None | _ => Z.of_N <$> digits_as_N 0 s end;
  float_as_int _ := None;
  str_as_bool _ := None;
  float_as_bool _ := None
|}.

(** ** The shape of a mapping, field by field *)

(** The field [key] is present in [data] and its value passes [schema]. *)
Definition present_ok {A} (data : pydict) (key : string) (schema : pyval → result A) : bool :=
  match data !! key with
  | Some v => is_ok (schema v)
  | None => false
  end.

(** The field [key] is absent from [data], or its value passes [schema]. *)
Definition absent_or_ok {A} (data : pydict) (key : string) (schema : pyval → result A) : bool :=
  match data !! key with
  | Some v => is_ok (schema v)
  | None => true
  end.

(** A schema that raises nothing but validation errors. *)
Definition validating {A} (schema : pyval → result A) : Prop :=
  ∀ v e, schema v = Raised e → e = ValidationError.

Definition KnowledgeTag_fields : list string :=
  ["id"; "name"; "color"; "created_at"; "updated_at"; "binding_count"].

Definition Metadata_fields : list string :=
  ["id"; "type"; "name"; "use_count"].

Section shapes.
Context {lax : LaxCoercion}.

(** The required fields of [KnowledgeTag] are present and well shaped. *)
Definition KnowledgeTag_required_ok (data : pydict) : bool :=
  present_ok data "id" (str_schema None) && present_ok data "name" (str_schema None).

(** The optional fields of [KnowledgeTag] that are present are well shaped. *)
Definition KnowledgeTag_optional_ok (data : pydict) : bool :=
  absent_or_ok data "color" (nullable (str_schema None))
  && absent_or_ok data "created_at" (nullable int_schema)
  && absent_or_ok data "updated_at" (nullable int_schema)
  && absent_or_ok data "binding_count" (nullable int_schema).

Definition Metadata_required_ok (data : pydict) : bool :=
  present_ok data "id" (str_schema None)
  && present_ok data "type" (str_schema None)
  && present_ok data "name" (str_schema None).

Definition Metadata_optional_ok (data : pydict) : bool :=
  absent_or_ok data "use_count" (nullable int_schema).


End shapes.

(** ** The methods of the facade, as one family *)

Inductive method_call : Type :=
| Create (name : string)
| List_
| Update (tag_id name : string)
| Delete (tag_id : string)
| BindToDataset (dataset_id : string) (tag_ids : list string)
| UnbindFromDataset (dataset_id tag_id : string)
| GetDatasetTags (dataset_id : string)
| CreateMetadata (dataset_id field_type name : string)
| UpdateMetadata (dataset_id metadata_id name : string)
| DeleteMetadata (dataset_id metadata_id : string)
| ToggleBuiltInMetadata (dataset_id action : string)
| UpdateDocumentMetadata (dataset_id : string) (operation_data : list operation_item)
| ListMetadata (dataset_id : string).

Definition returns (c : method_call) : Type :=
  match c with
  | Create _ | Update _ _ => KnowledgeTag.t
  | List_ | GetDatasetTags _ => list KnowledgeTag.t
  | CreateMetadata _ _ _ | UpdateMetadata _ _ _ => Metadata.t
  | ListMetadata _ => MetadataListResponse.t
  | Delete _ | BindToDataset _ _ | UnbindFromDataset _ _ | DeleteMetadata _ _
  | ToggleBuiltInMetadata _ _ | UpdateDocumentMetadata _ _ => pyval
  end.

Definition invoke `{LaxCoercion} (c : method_call) : Client (returns c) :=
  match c with
  | Create name => TagsClient.create name
  | List_ => TagsClient.list_
  | Update tag_id name => TagsClient.update tag_id name
  | Delete tag_id => TagsClient.delete tag_id
  | BindToDataset dataset_id tag_ids => TagsClient.bind_to_dataset dataset_id tag_ids
  | UnbindFromDataset dataset_id tag_id => TagsClient.unbind_from_dataset dataset_id tag_id
  | GetDatasetTags dataset_id => TagsClient.get_dataset_tags dataset_id
  | CreateMetadata dataset_id field_type name =>
      TagsClient.create_metadata dataset_id field_type name
  | UpdateMetadata dataset_id metadata_id name =>
      TagsClient.update_metadata dataset_id metadata_id name
  | DeleteMetadata dataset_id metadata_id => TagsClient.delete_metadata dataset_id metadata_id
  | ToggleBuiltInMetadata dataset_id action =>
      TagsClient.toggle_built_in_metadata dataset_id action
  | UpdateDocumentMetadata dataset_id operation_data =>
      TagsClient.update_document_metadata dataset_id operation_data
  | ListMetadata dataset_id => TagsClient.list_metadata dataset_id
  end.

(** The inputs that a method turns down before the transport: a tag name
    of more than 50 characters, a raw item that is no [DocumentMetadata]. *)
Definition rejects (c : method_call) : bool :=
  match c with
  | Create name | Update _ name => (50 <? String.length name)%nat
  | UpdateDocumentMetadata _ operation_data =>
      existsb (λ item,
                 match item with
                 | RawItem m => negb (is_ok (DocumentMetadata_init m))
                 | ModelItem _ => false
                 end) operation_data
  | _ => false
  end.

(** The keys that [model_dump] writes for the two schemas of a document's
    metadata, and a mapping that holds exactly these keys, at both levels. *)
Definition MetadataValue_keys : gset string := {[ "id"; "value"; "name" ]}.

Definition DocumentMetadata_keys : gset string := {[ "document_id"; "metadata_list" ]}.

Definition exact_entry (v : pyval) : Prop :=
  match v with
  | PDict m => dom m = MetadataValue_keys
  | _ => True
  end.

Definition exact_document (raw : pydict) : Prop :=
  dom raw = DocumentMetadata_keys
  ∧ ∀ l, raw !! "metadata_list" = Some (PList l) → Forall exact_entry l.

(** The two tests on a response: [isinstance(response, list)], and having
    no [get] method at all. *)
Definition neither_list_nor_dict (v : pyval) : bool :=
  match v with
  | PList _ | PDict _ => false
  | _ => true
  end.

Definition is_list (v : pyval) : bool :=
  match v with
  | PList _ => true
  | _ => false
  end.

(** A computation that calls the transport once: it starts with a call,
    what follows is a constructor run on the answer, and a raised
    transport error is what the computation raises. *)
Definition single_call {A} (c : Client A) (r : request) : Prop :=
  ∃ k, c = Call r k
       ∧ (∀ e, k (inl e) = Raise (TransportError e))
       ∧ (∀ v, ∃ res, k (inr v) = lift res).

(** * Properties *)

Section run_lemmas.
Context {S : Type} (t : transport S).

Lemma run_lift {A} (s : S) (r : result A) : run t s (lift r) = Outcome s [] r.
Proof. by destruct r. Qed.

Lemma lift_bind_Ok {A B} (a : A) (f : A → Client B) : lift (Ok a) ≫= f = f a.
Proof. done. Qed.

Lemma lift_bind_Raised {A B} (e : exn) (f : A → Client B) :
  lift (Raised e) ≫= f = Raise e.
Proof. done. Qed.

Lemma run_send_value {A} (s s' : S) (r : request) (v : pyval) (f : pyval → Client A) :
  answers t s r s' (inr v) →
  run t s (BaseClient.send r ≫= f) =
    Outcome (final (run t s' (f v))) (r :: calls (run t s' (f v))) (value (run t s' (f v))).
Proof. unfold answers. intros Ht. cbn. by rewrite Ht. Qed.

Lemma run_send_error {A} (s s' : S) (r : request) (e : transport_error) (f : pyval → Client A) :
  answers t s r s' (inl e) →
  run t s (BaseClient.send r ≫= f) = Outcome s' [r] (Raised (TransportError e)).
Proof. unfold answers. intros Ht. cbn. by rewrite Ht. Qed.

Lemma run_send_lift {A} (s s' : S) (r : request) (v : pyval) (f : pyval → result A) :
  answers t s r s' (inr v) →
  run t s (BaseClient.send r ≫= λ response, lift (f response)) = Outcome s' [r] (f v).
Proof. intros Ht. rewrite (run_send_value _ _ _ _ _ Ht). by rewrite run_lift. Qed.

End run_lemmas.

Section facade_properties.
Context {lax : LaxCoercion}.

(** The list comprehension of [list] and [get_dataset_tags]. *)
Local Abbreviation parse_tags := (mapM (λ tag, kwargs tag ≫= KnowledgeTag_init)).

Lemma list_on_bare_array {S} (t : transport S) s s' (tags : list pyval) :
  answers t s (Request GET "/v1/datasets/tags" None) s' (inr (PList tags)) →
  run t s TagsClient.list_ =
    Outcome s' [Request GET "/v1/datasets/tags" None] (parse_tags tags).
Proof.
  intros Ht. unfold TagsClient.list_, BaseClient.get.
  rewrite (run_send_value _ _ _ _ _ _ Ht). cbv beta iota. by rewrite run_lift.
Qed.

Lemma list_on_object {S} (t : transport S) s s' (m : pydict) :
  answers t s (Request GET "/v1/datasets/tags" None) s' (inr (PDict m)) →
  run t s TagsClient.list_ =
    Outcome s' [Request GET "/v1/datasets/tags" None]
      (py_iter (from_option id (PList []) (m !! "data")) ≫= parse_tags).
Proof.
  intros Ht. unfold TagsClient.list_, BaseClient.get.
  rewrite (run_send_value _ _ _ _ _ _ Ht). cbv beta iota. by rewrite run_lift.
Qed.

Lemma get_dataset_tags_on_bare_array {S} (t : transport S) s s' dataset_id (tags : list pyval) :
  answers t s (Request GET ("/v1/datasets/" +:+ dataset_id +:+ "/tags") None) s'
    (inr (PList tags)) →
  run t s (TagsClient.get_dataset_tags dataset_id) =
    Outcome s' [Request GET ("/v1/datasets/" +:+ dataset_id +:+ "/tags") None]
      (parse_tags tags).
Proof.
  intros Ht. unfold TagsClient.get_dataset_tags, BaseClient.get.
  rewrite (run_send_value _ _ _ _ _ _ Ht). cbv beta iota. by rewrite run_lift.
Qed.

Lemma get_dataset_tags_on_object {S} (t : transport S) s s' dataset_id (m : pydict) :
  answers t s (Request GET ("/v1/datasets/" +:+ dataset_id +:+ "/tags") None) s'
    (inr (PDict m)) →
  run t s (TagsClient.get_dataset_tags dataset_id) =
    Outcome s' [Request GET ("/v1/datasets/" +:+ dataset_id +:+ "/tags") None]
      (py_iter (from_option id (PList []) (m !! "data")) ≫= parse_tags).
Proof.
  intros Ht. unfold TagsClient.get_dataset_tags, BaseClient.get.
  rewrite (run_send_value _ _ _ _ _ _ Ht). cbv beta iota. by rewrite run_lift.
Qed.

(** C1.  Whether the transport answers with the bare array [tags] or with
    an object holding [tags] under the key "data", [list()] and
    [get_dataset_tags(dataset_id)] end in the same outcome: the same call
    made, and the same typed sequence returned (or the same error raised
    when an item is not a well-formed tag). *)
Theorem list_envelopes_agree (tags : list pyval) (m : pydict) :
  m !! "data" = Some (PList tags) →
  (∀ S (t t' : transport S) s s',
     answers t s (Request GET "/v1/datasets/tags" None) s' (inr (PList tags)) →
     answers t' s (Request GET "/v1/datasets/tags" None) s' (inr (PDict m)) →
     run t s TagsClient.list_ = run t' s TagsClient.list_
     ∧ value (run t s TagsClient.list_) = parse_tags tags)
  ∧ (∀ dataset_id S (t t' : transport S) s s',
     answers t s (Request GET ("/v1/datasets/" +:+ dataset_id +:+ "/tags") None) s'
       (inr (PList tags)) →
     answers t' s (Request GET ("/v1/datasets/" +:+ dataset_id +:+ "/tags") None) s'
       (inr (PDict m)) →
     run t s (TagsClient.get_dataset_tags dataset_id)
       = run t' s (TagsClient.get_dataset_tags dataset_id)
     ∧ value (run t s (TagsClient.get_dataset_tags dataset_id)) = parse_tags tags).
Proof.
  intros Hdata. split.
  - intros S t t' s s' Ht Ht'.
    rewrite (list_on_bare_array _ _ _ _ Ht), (list_on_object _ _ _ _ Ht'), Hdata.
    done.
  - intros dataset_id S t t' s s' Ht Ht'.
    rewrite (get_dataset_tags_on_bare_array _ _ _ _ _ Ht),
      (get_dataset_tags_on_object _ _ _ _ _ Ht'), Hdata.
    done.
Qed.

(** C10.  When the transport answers with a mapping that has no key "data",
    [list()] and [get_dataset_tags(dataset_id)] return the empty sequence. *)
Theorem list_without_data_is_empty (m : pydict) :
  m !! "data" = None →
  (∀ S (t : transport S) s s',
     answers t s (Request GET "/v1/datasets/tags" None) s' (inr (PDict m)) →
     run t s TagsClient.list_ = Outcome s' [Request GET "/v1/datasets/tags" None] (Ok []))
  ∧ (∀ dataset_id S (t : transport S) s s',
     answers t s (Request GET ("/v1/datasets/" +:+ dataset_id +:+ "/tags") None) s'
       (inr (PDict m)) →
     run t s (TagsClient.get_dataset_tags dataset_id) =
       Outcome s' [Request GET ("/v1/datasets/" +:+ dataset_id +:+ "/tags") None] (Ok [])).
Proof.
  intros Hdata. split.
  - intros S t s s' Ht. by rewrite (list_on_object _ _ _ _ Ht), Hdata.
  - intros dataset_id S t s s' Ht.
    by rewrite (get_dataset_tags_on_object _ _ _ _ _ Ht), Hdata.
Qed.

(** *** Local validation of requests *)

Lemma CreateKnowledgeTagRequest_of_name (name : string) :
  CreateKnowledgeTagRequest_init {[ "name" := PStr name ]} =
    if (50 <? String.length name)%nat then Raised ValidationError
    else Ok (CreateKnowledgeTagRequest.mk name).
Proof.
  unfold CreateKnowledgeTagRequest_init, required. rewrite lookup_singleton_eq.
  unfold str_schema. by destruct (50 <? String.length name)%nat.
Qed.

Lemma UpdateKnowledgeTagRequest_of_name (tag_id name : string) :
  UpdateKnowledgeTagRequest_init {[ "name" := PStr name; "tag_id" := PStr tag_id ]} =
    if (50 <? String.length name)%nat then Raised ValidationError
    else Ok (UpdateKnowledgeTagRequest.mk name tag_id).
Proof.
  unfold UpdateKnowledgeTagRequest_init, required. rewrite lookup_insert_eq.
  rewrite lookup_insert_ne by done. rewrite lookup_singleton_eq.
  unfold str_schema. by destruct (50 <? String.length name)%nat.
Qed.

Lemma mapM_str_schema (l : list string) :
  mapM (str_schema None) (PStr <$> l) = Ok l.
Proof. induction l as [|x l IH]; [done|]. cbn. cbn in IH. by rewrite IH. Qed.

Lemma BindDatasetToTagRequest_of_ids (dataset_id : string) (tag_ids : list string) :
  BindDatasetToTagRequest_init
    {[ "tag_ids" := PList (PStr <$> tag_ids); "target_id" := PStr dataset_id ]} =
    Ok (BindDatasetToTagRequest.mk tag_ids dataset_id).
Proof.
  unfold BindDatasetToTagRequest_init, required. rewrite lookup_insert_eq.
  rewrite lookup_insert_ne by done. rewrite lookup_singleton_eq.
  unfold list_schema. by rewrite mapM_str_schema.
Qed.

(** C2.  A name of at most 50 characters passes the validation of the
    create-tag request, and so [create(name)] reaches the transport; with a
    name of 51 characters or more, [create(name)] and [update(tag_id, name)]
    raise a validation error and the transport is not called. *)
Theorem tag_name_length_validation (name : string) :
  ((String.length name ≤ 50)%nat →
     CreateKnowledgeTagRequest_init {[ "name" := PStr name ]}
       = Ok (CreateKnowledgeTagRequest.mk name)
     ∧ passes_local_validation (TagsClient.create name))
  ∧ ((51 ≤ String.length name)%nat →
     CreateKnowledgeTagRequest_init {[ "name" := PStr name ]} = Raised ValidationError
     ∧ fails_locally (TagsClient.create name) ValidationError
     ∧ ∀ tag_id, fails_locally (TagsClient.update tag_id name) ValidationError).
Proof.
  split; intros Hlen.
  - assert ((50 <? String.length name)%nat = false) as Hle by (apply Nat.ltb_ge; lia).
    split.
    + by rewrite CreateKnowledgeTagRequest_of_name, Hle.
    + intros e. unfold TagsClient.create.
      by rewrite CreateKnowledgeTagRequest_of_name, Hle.
  - assert ((50 <? String.length name)%nat = true) as Hgt by (apply Nat.ltb_lt; lia).
    split; [|split].
    + by rewrite CreateKnowledgeTagRequest_of_name, Hgt.
    + intros S t s. unfold TagsClient.create.
      by rewrite CreateKnowledgeTagRequest_of_name, Hgt.
    + intros tag_id S t s. unfold TagsClient.update.
      by rewrite UpdateKnowledgeTagRequest_of_name, Hgt.
Qed.

(** C3, as the code has it.  [toggle_built_in_metadata(dataset_id, action)]
    checks nothing locally: for every action string, in the set
    {"enable", "disable"} or not, it makes one POST to
    /v1/datasets/{dataset_id}/metadata/built-in/{action} without a body and
    returns what the transport returns or raises what it raises. *)
Theorem toggle_forwards_any_action (dataset_id action : string)
    {S} (t : transport S) (s : S) :
  run t s (TagsClient.toggle_built_in_metadata dataset_id action) =
    let r := Request POST
               ("/v1/datasets/" +:+ dataset_id +:+ "/metadata/built-in/" +:+ action)
               None in
    Outcome (t s r).1 [r]
      match (t s r).2 with
      | inl e => Raised (TransportError e)
      | inr v => Ok v
      end.
Proof.
  unfold TagsClient.toggle_built_in_metadata, BaseClient.post, BaseClient.send. cbn.
  by destruct (t s _) as [s' [e|v]].
Qed.

(** C4, as the code has it.  [bind_to_dataset(dataset_id, tag_ids)] accepts
    every list of tag ids, the empty one too: the request passes local
    validation and one POST to /v1/datasets/tags/binding carries the body
    {"tag_ids": tag_ids, "target_id": dataset_id}. *)
Theorem bind_accepts_any_tag_ids (dataset_id : string) (tag_ids : list string)
    {S} (t : transport S) (s : S) :
  passes_local_validation (TagsClient.bind_to_dataset dataset_id tag_ids)
  ∧ run t s (TagsClient.bind_to_dataset dataset_id tag_ids) =
      let r := Request POST "/v1/datasets/tags/binding"
                 (Some (PDict {[ "tag_ids" := PList (PStr <$> tag_ids);
                                 "target_id" := PStr dataset_id ]})) in
      Outcome (t s r).1 [r]
        match (t s r).2 with
        | inl e => Raised (TransportError e)
        | inr v => Ok v
        end.
Proof.
  unfold TagsClient.bind_to_dataset. rewrite BindDatasetToTagRequest_of_ids.
  split; [done|].
  unfold BaseClient.post, BaseClient.send. cbn.
  by destruct (t s _) as [s' [e|v]].
Qed.

(** C8.  [create("Research")] against a transport that answers the POST
    with {"id": "t1", "name": "Research"} returns the tag with id "t1" and
    name "Research" whose optional fields [color], [created_at],
    [updated_at] and [binding_count] are all [None], the absent marker of
    the [option] type, which no present value equals. *)
Theorem create_research_scenario {S} (t : transport S) (s s' : S) :
  answers t s
    (Request POST "/v1/datasets/tags" (Some (PDict {[ "name" := PStr "Research" ]})))
    s' (inr (PDict {[ "id" := PStr "t1"; "name" := PStr "Research" ]})) →
  run t s (TagsClient.create "Research") =
    Outcome s'
      [Request POST "/v1/datasets/tags" (Some (PDict {[ "name" := PStr "Research" ]}))]
      (Ok (KnowledgeTag.mk "t1" "Research" None None None None)).
Proof.
  intros Ht. unfold TagsClient.create.
  rewrite CreateKnowledgeTagRequest_of_name. cbn [String.length Nat.ltb Nat.leb].
  rewrite lift_bind_Ok. unfold BaseClient.post, CreateKnowledgeTagRequest_model_dump.
  cbn [CreateKnowledgeTagRequest.name].
  by rewrite (run_send_lift _ _ _ _ _ _ Ht).
Qed.

(** C6.  The raw mapping
    {"document_id": "d1", "metadata_list": [{"id": "m1", "value": "v1", "name": "f1"}]}
    constructs a [DocumentMetadata], and dumping that instance gives the
    same mapping back. *)
Theorem DocumentMetadata_round_trip :
  let raw : pydict :=
    {[ "document_id" := PStr "d1";
       "metadata_list" :=
         PList [PDict {[ "id" := PStr "m1"; "value" := PStr "v1"; "name" := PStr "f1" ]}] ]} in
  DocumentMetadata_init raw
    = Ok (DocumentMetadata.mk "d1" [MetadataValue.mk "m1" "v1" "f1"])
  ∧ DocumentMetadata_model_dump (DocumentMetadata.mk "d1" [MetadataValue.mk "m1" "v1" "f1"])
    = PDict raw.
Proof. split; reflexivity. Qed.

(** *** Lists built item by item *)

Lemma mapM_Ok_Forall2 {A B} (f : A → result B) (l : list A) (k : list B) :
  mapM f l = Ok k ↔ Forall2 (λ x y, f x = Ok y) l k.
Proof.
  revert k. induction l as [|x l IH]; intros k.
  - split.
    + intros [= <-]. constructor.
    + intros Hk. by inversion Hk.
  - cbn. destruct (f x) as [y|e] eqn:Hx; cbn.
    + destruct (mapM f l) as [k'|e] eqn:Hl; cbn.
      * split.
        -- intros [= <-]. constructor; [done|]. by apply IH.
        -- intros Hk. inversion Hk as [|? y' ? k'' Hy Hk'']; subst.
           apply IH in Hk''. unfold mret, result_ret. congruence.
      * split; [done|]. intros Hk. inversion Hk as [|? y' ? k'' Hy Hk'']; subst.
        apply IH in Hk''. congruence.
    + split; [done|]. intros Hk. inversion Hk; congruence.
Qed.



Lemma DocumentMetadata_init_in_order (m : pydict) (d : DocumentMetadata.t) :
  DocumentMetadata_init m = Ok d →
  m !! "document_id" = Some (PStr (DocumentMetadata.document_id d))
  ∧ ∃ l, m !! "metadata_list" = Some (PList l)
         ∧ Forall2 (λ v mv, model_schema MetadataValue_init v = Ok mv) l
             (DocumentMetadata.metadata_list d).
Proof.
  unfold DocumentMetadata_init, required.
  destruct (m !! "document_id") as [[| | | |doc| |]|]; cbn; try done.
  destruct (m !! "metadata_list") as [[| | | | |l|]|]; cbn; try done.
  destruct (mapM (model_schema MetadataValue_init) l) as [k|e] eqn:Hk; cbn; [|done].
  intros [= <-]. cbn. split; [done|]. exists l. split; [done|]. by apply mapM_Ok_Forall2.
Qed.

Lemma mapM_Raised_Exists {A B} (f : A → result B) (l : list A) :
  Exists (λ x, is_ok (f x) = false) l → is_ok (mapM f l) = false.
Proof.
  induction 1 as [x l Hx|x l _ IH]; cbn.
  - by destruct (f x).
  - destruct (f x); [|done]. cbn. by destruct (mapM f l).
Qed.

(** A raw mapping that does not construct a [DocumentMetadata] stops the
    method before the transport. *)
Lemma update_document_metadata_rejects_locally (dataset_id : string)
    (operation_data : list operation_item) :
  Exists (λ item,
            match item with
            | RawItem m => is_ok (DocumentMetadata_init m) = false
            | ModelItem _ => False
            end) operation_data →
  ∃ e, fails_locally (TagsClient.update_document_metadata dataset_id operation_data) e.
Proof.
  intros Hbad. unfold TagsClient.update_document_metadata.
  match goal with
  | |- context [lift ?res ≫= _] => assert (is_ok res = false) as Hres
  end.
  { apply mapM_Raised_Exists. eapply Exists_impl; [exact Hbad|].
    intros [m|d]; [done|]. intros []. }
  match type of Hres with
  | is_ok ?res = false => destruct res as [?|e]; [done|]
  end.
  exists e. intros S t s. by rewrite lift_bind_Raised.
Qed.



(** *** Dumping and constructing again *)

Lemma MetadataValue_init_model_dump (v : MetadataValue.t) :
  model_schema MetadataValue_init (MetadataValue_model_dump v) = Ok v.
Proof.
  destruct v as [i x n]. unfold MetadataValue_model_dump, model_schema, MetadataValue_init,
    required. cbn [MetadataValue.id MetadataValue.value MetadataValue.name].
  rewrite lookup_insert_eq.
  rewrite (lookup_insert_ne _ "id" "value") by done. rewrite lookup_insert_eq.
  rewrite (lookup_insert_ne _ "id" "name") by done.
  rewrite (lookup_insert_ne _ "value" "name") by done. rewrite lookup_singleton_eq.
  done.
Qed.

Lemma DocumentMetadata_init_model_dump (d : DocumentMetadata.t) :
  model_schema DocumentMetadata_init (DocumentMetadata_model_dump d) = Ok d.
Proof.
  destruct d as [doc l]. unfold DocumentMetadata_model_dump, model_schema,
    DocumentMetadata_init, required.
  cbn [DocumentMetadata.document_id DocumentMetadata.metadata_list].
  rewrite lookup_insert_eq.
  rewrite (lookup_insert_ne _ "document_id" "metadata_list") by done.
  rewrite lookup_singleton_eq. unfold str_schema, list_schema. cbn [mbind result_bind].
  assert (mapM (model_schema MetadataValue_init) (MetadataValue_model_dump <$> l) = Ok l)
    as ->; [|done].
  apply mapM_Ok_Forall2. induction l; constructor; [|done].
  apply MetadataValue_init_model_dump.
Qed.

(** *** Parsing a response mapping *)

Lemma is_ok_required {A} (data : pydict) (key : string) (schema : pyval → result A) :
  is_ok (required data key schema) = present_ok data key schema.
Proof. unfold required, present_ok. by destruct (data !! key). Qed.

Lemma is_ok_with_default {A} (data : pydict) (key : string) (schema : pyval → result A)
    (d : A) :
  is_ok (with_default data key schema d) = absent_or_ok data key schema.
Proof. unfold with_default, absent_or_ok. by destruct (data !! key). Qed.

Lemma validating_str (max_length : option nat) : validating (str_schema max_length).
Proof.
  intros v e. unfold str_schema. destruct v as [| | | |s| |]; try congruence.
  destruct max_length as [n|]; [|congruence].
  destruct (n <? String.length s)%nat; congruence.
Qed.

Lemma validating_int : validating int_schema.
Proof.
  intros v e. destruct v as [| | |f|s| |]; cbn; try congruence.
  - destruct (float_as_int f); cbn; congruence.
  - destruct (str_as_int s); cbn; congruence.
Qed.

Lemma validating_nullable {A} (schema : pyval → result A) :
  validating schema → validating (nullable schema).
Proof.
  intros Hs v e. destruct v; cbn; try done;
    match goal with
    | |- context [schema ?v] => destruct (schema v) as [a|e'] eqn:Hv; cbn; [done|];
        intros [= <-]; by apply (Hs _ _ Hv)
    end.
Qed.

Lemma required_raises {A} (data : pydict) (key : string) (schema : pyval → result A) e :
  validating schema → required data key schema = Raised e → e = ValidationError.
Proof. intros Hs. unfold required. destruct (data !! key); [apply Hs|congruence]. Qed.

Lemma with_default_raises {A} (data : pydict) (key : string) (schema : pyval → result A)
    (d : A) e :
  validating schema → with_default data key schema d = Raised e → e = ValidationError.
Proof. intros Hs. unfold with_default. destruct (data !! key); [apply Hs|congruence]. Qed.

Lemma required_insert_ne {A} (data : pydict) (k key : string) (v : pyval)
    (schema : pyval → result A) :
  k ≠ key → required (<[k:=v]> data) key schema = required data key schema.
Proof. intros Hne. unfold required. by rewrite lookup_insert_ne. Qed.

Lemma with_default_insert_ne {A} (data : pydict) (k key : string) (v : pyval)
    (schema : pyval → result A) (d : A) :
  k ≠ key → with_default (<[k:=v]> data) key schema d = with_default data key schema d.
Proof. intros Hne. unfold with_default. by rewrite lookup_insert_ne. Qed.

Ltac field_cases :=
  repeat match goal with
    | |- context [required ?d ?k ?s ≫= _] =>
        destruct (required d k s) eqn:?; cbn [mbind result_bind]
    | |- context [with_default ?d ?k ?s ?x ≫= _] =>
        destruct (with_default d k s x) eqn:?; cbn [mbind result_bind]
    end.

Create HintDb schemas.
#[local] Hint Resolve validating_str validating_int validating_nullable : schemas.
#[local] Hint Resolve required_raises with_default_raises : schemas.

Lemma KnowledgeTag_init_ignores (data : pydict) (k : string) (v : pyval) :
  k ∉ KnowledgeTag_fields → KnowledgeTag_init (<[k:=v]> data) = KnowledgeTag_init data.
Proof.
  unfold KnowledgeTag_fields. intros Hk.
  repeat (apply not_elem_of_cons in Hk as [? Hk]).
  unfold KnowledgeTag_init.
  by rewrite !required_insert_ne, !with_default_insert_ne.
Qed.

Lemma Metadata_init_ignores (data : pydict) (k : string) (v : pyval) :
  k ∉ Metadata_fields → Metadata_init (<[k:=v]> data) = Metadata_init data.
Proof.
  unfold Metadata_fields. intros Hk.
  repeat (apply not_elem_of_cons in Hk as [? Hk]).
  unfold Metadata_init.
  by rewrite !required_insert_ne, !with_default_insert_ne.
Qed.

Lemma KnowledgeTag_init_raises (data : pydict) (e : exn) :
  KnowledgeTag_init data = Raised e → e = ValidationError.
Proof.
  unfold KnowledgeTag_init. field_cases; try done; intros [= <-]; eauto with schemas.
Qed.

Lemma Metadata_init_raises (data : pydict) (e : exn) :
  Metadata_init data = Raised e → e = ValidationError.
Proof.
  unfold Metadata_init. field_cases; try done; intros [= <-]; eauto with schemas.
Qed.

Lemma KnowledgeTag_init_is_ok (data : pydict) :
  is_ok (KnowledgeTag_init data)
    = KnowledgeTag_required_ok data && KnowledgeTag_optional_ok data.
Proof.
  unfold KnowledgeTag_required_ok, KnowledgeTag_optional_ok.
  rewrite <- !is_ok_required.
  rewrite <- (is_ok_with_default data "color" _ None).
  rewrite <- (is_ok_with_default data "created_at" _ None).
  rewrite <- (is_ok_with_default data "updated_at" _ None).
  rewrite <- (is_ok_with_default data "binding_count" _ None).
  unfold KnowledgeTag_init. by field_cases.
Qed.

Lemma Metadata_init_is_ok (data : pydict) :
  is_ok (Metadata_init data) = Metadata_required_ok data && Metadata_optional_ok data.
Proof.
  unfold Metadata_required_ok, Metadata_optional_ok.
  rewrite <- !is_ok_required.
  rewrite <- (is_ok_with_default data "use_count" _ None).
  unfold Metadata_init. by field_cases.
Qed.

(** C7, as the code has it.  Parsing a response mapping into [KnowledgeTag]
    or [Metadata] ignores every key that is not a declared field, and it
    fails, with a validation error, exactly when a required field is absent
    or of the wrong shape, or an optional field that is present is of the
    wrong shape; otherwise it succeeds. *)
Theorem response_parsing_policy (data : pydict) :
  (∀ k v, k ∉ KnowledgeTag_fields →
          KnowledgeTag_init (<[k:=v]> data) = KnowledgeTag_init data)
  ∧ (∀ k v, k ∉ Metadata_fields → Metadata_init (<[k:=v]> data) = Metadata_init data)
  ∧ (KnowledgeTag_init data = Raised ValidationError
       ↔ KnowledgeTag_required_ok data && KnowledgeTag_optional_ok data = false)
  ∧ (is_ok (KnowledgeTag_init data) = true
       ↔ KnowledgeTag_required_ok data && KnowledgeTag_optional_ok data = true)
  ∧ (Metadata_init data = Raised ValidationError
       ↔ Metadata_required_ok data && Metadata_optional_ok data = false)
  ∧ (is_ok (Metadata_init data) = true
       ↔ Metadata_required_ok data && Metadata_optional_ok data = true).
Proof.
  split; [intros k v; apply KnowledgeTag_init_ignores|].
  split; [intros k v; apply Metadata_init_ignores|].
  rewrite <- KnowledgeTag_init_is_ok, <- Metadata_init_is_ok.
  repeat split; try done.
  - by intros ->.
  - destruct (KnowledgeTag_init data) as [tag|e] eqn:Hinit; [done|].
    intros _. by rewrite (KnowledgeTag_init_raises _ _ Hinit).
  - by intros ->.
  - destruct (Metadata_init data) as [md|e] eqn:Hinit; [done|].
    intros _. by rewrite (Metadata_init_raises _ _ Hinit).
Qed.

(** *** One call per method *)

Lemma single_call_send_then {A} (r : request) (g : pyval → Client A) :
  (∀ v, ∃ res, g v = lift res) → single_call (BaseClient.send r ≫= g) r.
Proof.
  intros Hg. eexists. split; [reflexivity|]. split; [done|].
  intros v. destruct (Hg v) as [res Hres]. exists res. cbn. exact Hres.
Qed.

Lemma single_call_send (r : request) : single_call (BaseClient.send r) r.
Proof.
  eexists. split; [reflexivity|]. split; [done|]. intros v. by exists (Ok v).
Qed.

Lemma single_call_run {A} (c : Client A) (r : request) {S} (t : transport S) (s : S) :
  single_call c r →
  calls (run t s c) = [r]
  ∧ ∀ s' e, answers t s r s' (inl e) →
            run t s c = Outcome s' [r] (Raised (TransportError e)).
Proof.
  intros (k & -> & Herr & Hval). unfold answers. cbn.
  destruct (t s r) as [s1 [e|v]].
  - rewrite Herr. cbn. split; [done|]. by intros s' e' [= <- <-].
  - destruct (Hval v) as [res ->]. rewrite run_lift. cbn. split; [done|].
    by intros s' e' [=].
Qed.

Ltac after_validation :=
  match goal with
  | |- context [lift ?res ≫= _] => destruct res; [right|left; by eexists]
  | |- _ => right
  end.

Lemma invoke_dichotomy (c : method_call) :
  (∃ e, invoke c = Raise e) ∨ (∃ r, single_call (invoke c) r).
Proof.
  destruct c; cbn [invoke returns];
    unfold TagsClient.create, TagsClient.list_, TagsClient.update, TagsClient.delete,
      TagsClient.bind_to_dataset, TagsClient.unbind_from_dataset,
      TagsClient.get_dataset_tags, TagsClient.create_metadata,
      TagsClient.update_metadata, TagsClient.delete_metadata,
      TagsClient.toggle_built_in_metadata, TagsClient.update_document_metadata,
      TagsClient.list_metadata, BaseClient.get, BaseClient.post, BaseClient.patch,
      BaseClient.delete;
    after_validation; rewrite ?lift_bind_Ok; eexists;
    first [ apply single_call_send
          | apply single_call_send_then; intros v; try destruct v; by eexists ].
Qed.

Lemma validation_failure_is_local (c : method_call) :
  ¬ passes_local_validation (invoke c) → ∃ e, fails_locally (invoke c) e.
Proof.
  intros Hnot. destruct (invoke_dichotomy c) as [[e He]|[r (k & Hk & _)]].
  - exists e. intros S t s. by rewrite He.
  - destruct Hnot. intros e. by rewrite Hk.
Qed.

Lemma validating_list {A} (items : pyval → result A) :
  validating items → validating (list_schema items).
Proof.
  intros Hitems v e. destruct v as [| | | | |l|]; cbn; try congruence.
  induction l as [|x l IH]; cbn; [done|].
  destruct (items x) as [y|e'] eqn:Hx; cbn.
  - destruct (mapM items l); cbn; [done|]. intros [= <-]. by apply IH.
  - intros [= <-]. by apply (Hitems _ _ Hx).
Qed.

Lemma validating_model {A} (init : pydict → result A) :
  (∀ data e, init data = Raised e → e = ValidationError) →
  validating (model_schema init).
Proof. intros Hinit v e. destruct v; cbn; try congruence. apply Hinit. Qed.

Lemma MetadataValue_init_raises (data : pydict) (e : exn) :
  MetadataValue_init data = Raised e → e = ValidationError.
Proof.
  unfold MetadataValue_init. field_cases; try done; intros [= <-]; eauto with schemas.
Qed.

Lemma DocumentMetadata_init_raises (data : pydict) (e : exn) :
  DocumentMetadata_init data = Raised e → e = ValidationError.
Proof.
  unfold DocumentMetadata_init. field_cases; try done; intros [= <-];
    eauto using validating_list, validating_model, MetadataValue_init_raises with schemas.
Qed.

Lemma converted_data_raises (operation_data : list operation_item) (e : exn) :
  mapM (λ item,
          match item with
          | RawItem item => DocumentMetadata_init item
          | ModelItem item => Ok item
          end) operation_data = Raised e →
  e = ValidationError.
Proof.
  induction operation_data as [|item l IH]; cbn; [done|].
  destruct item as [m|d]; cbn.
  - destruct (DocumentMetadata_init m) as [d|e'] eqn:Hm; cbn.
    + destruct (mapM _ l); cbn; [done|]. intros [= <-]. by apply IH.
    + intros [= <-]. by apply (DocumentMetadata_init_raises _ _ Hm).
  - destruct (mapM _ l); cbn; [done|]. intros [= <-]. by apply IH.
Qed.

Ltac request_cases :=
  match goal with
  | |- context [lift ?res ≫= _] =>
      let Hres := fresh "Hres" in
      destruct res eqn:Hres; [rewrite lift_bind_Ok; try discriminate|];
      rewrite lift_bind_Raised; intros [= <-]; revert Hres
  | |- _ => discriminate
  end.

(** What a method raises before it reaches the transport is a validation
    error of a schema constructor. *)
Lemma local_errors_are_validation_errors (c : method_call) (e : exn) :
  invoke c = Raise e → e = ValidationError.
Proof.
  destruct c; cbn [invoke returns];
    unfold TagsClient.create, TagsClient.list_, TagsClient.update, TagsClient.delete,
      TagsClient.bind_to_dataset, TagsClient.unbind_from_dataset,
      TagsClient.get_dataset_tags, TagsClient.create_metadata,
      TagsClient.update_metadata, TagsClient.delete_metadata,
      TagsClient.toggle_built_in_metadata, TagsClient.update_document_metadata,
      TagsClient.list_metadata, BaseClient.get, BaseClient.post, BaseClient.patch,
      BaseClient.delete, BaseClient.send; request_cases.
  - unfold CreateKnowledgeTagRequest_init. field_cases; try done; intros [= <-]; eauto with schemas.
  - unfold UpdateKnowledgeTagRequest_init. field_cases; try done; intros [= <-]; eauto with schemas.
  - unfold DeleteKnowledgeTagRequest_init. field_cases; try done; intros [= <-]; eauto with schemas.
  - unfold BindDatasetToTagRequest_init. field_cases; try done; intros [= <-];
      eauto using validating_list with schemas.
  - unfold UnbindDatasetFromTagRequest_init. field_cases; try done; intros [= <-];
      eauto with schemas.
  - unfold CreateMetadataRequest_init. field_cases; try done; intros [= <-]; eauto with schemas.
  - unfold UpdateMetadataRequest_init. field_cases; try done; intros [= <-]; eauto with schemas.
  - apply converted_data_raises.
Qed.

(** C9.  Every method of [TagsClient], on an input that passes the local
    validation, calls the transport exactly once, whatever the transport;
    and when the transport raises on that call, the method raises the very
    same error. *)
Theorem one_transport_call (c : method_call) :
  passes_local_validation (invoke c) →
  ∃ r, ∀ S (t : transport S) (s : S),
    calls (run t s (invoke c)) = [r]
    ∧ ∀ s' e, answers t s r s' (inl e) →
              run t s (invoke c) = Outcome s' [r] (Raised (TransportError e)).
Proof.
  intros Hpass. destruct (invoke_dichotomy c) as [[e He]|[r Hr]].
  - by destruct (Hpass e).
  - exists r. intros S t s. by apply single_call_run.
Qed.

End facade_properties.

(** * The properties at concrete inputs *)

(** Two tags, one with a count given as a string of digits, under both
    envelopes. *)
Lemma list_envelopes_agree_witness :
  let tags := [PDict {[ "id" := PStr "t1"; "name" := PStr "Research" ]};
               PDict {[ "id" := PStr "t2"; "name" := PStr "Law"; "binding_count" := PStr "3" ]}] in
  ({[ "data" := PList tags ]} : pydict) !! "data" = Some (PList tags)
  ∧ run (always (PList tags)) () TagsClient.list_
      = run (always (PDict {[ "data" := PList tags ]})) () TagsClient.list_
  ∧ value (run (always (PList tags)) () TagsClient.list_)
      = Ok [KnowledgeTag.mk "t1" "Research" None None None None;
            KnowledgeTag.mk "t2" "Law" None None None (Some 3%Z)].
Proof.
  intros tags. split; [reflexivity|].
  exact (proj1 (list_envelopes_agree tags {[ "data" := PList tags ]} eq_refl)
           unit (always (PList tags)) (always (PDict {[ "data" := PList tags ]}))
           () () eq_refl eq_refl).
Defined.

(** The empty object. *)
Lemma list_without_data_is_empty_witness :
  (∅ : pydict) !! "data" = None
  ∧ run (always (PDict ∅)) () TagsClient.list_
      = Outcome () [Request GET "/v1/datasets/tags" None] (Ok []).
Proof.
  split; [reflexivity|].
  exact (proj1 (list_without_data_is_empty ∅ eq_refl) unit (always (PDict ∅)) () () eq_refl).
Defined.

(** A name of 8 characters and a name of 51. *)
Lemma tag_name_length_validation_witness :
  ((String.length "Research" ≤ 50)%nat
   ∧ passes_local_validation (TagsClient.create "Research"))
  ∧ ((51 ≤ String.length "abcdefghijklmnopqrstuvwxyzabcdefghijklmnopqrstuvwxy")%nat
     ∧ fails_locally
         (TagsClient.create "abcdefghijklmnopqrstuvwxyzabcdefghijklmnopqrstuvwxy")
         ValidationError).
Proof.
  split.
  - assert ((String.length "Research" ≤ 50)%nat) as Hlen by (vm_compute; lia).
    split; [exact Hlen|].
    exact (proj2 (proj1 (tag_name_length_validation "Research") Hlen)).
  - assert ((51 ≤ String.length "abcdefghijklmnopqrstuvwxyzabcdefghijklmnopqrstuvwxy")%nat)
      as Hlen by (vm_compute; lia).
    split; [exact Hlen|].
    exact (proj1 (proj2 (proj2 (tag_name_length_validation _) Hlen))).
Defined.


(** A key the schema does not declare. *)
Lemma response_parsing_policy_witness :
  let data : pydict := {[ "id" := PStr "t1"; "name" := PStr "Research" ]} in
  ("tenant" ∉ KnowledgeTag_fields)
  ∧ KnowledgeTag_init (<["tenant" := PInt 7]> data) = KnowledgeTag_init data.
Proof.
  intros data.
  assert ("tenant" ∉ KnowledgeTag_fields) as Hk.
  { unfold KnowledgeTag_fields. rewrite !not_elem_of_cons. repeat split; try done.
    apply not_elem_of_nil. }
  split; [exact Hk|].
  exact (proj1 (response_parsing_policy data) "tenant" (PInt 7) Hk).
Defined.

(** The transport that always answers with the created tag. *)
Lemma create_research_scenario_witness :
  answers (always (PDict {[ "id" := PStr "t1"; "name" := PStr "Research" ]})) ()
    (Request POST "/v1/datasets/tags" (Some (PDict {[ "name" := PStr "Research" ]})))
    () (inr (PDict {[ "id" := PStr "t1"; "name" := PStr "Research" ]}))
  ∧ value (run (always (PDict {[ "id" := PStr "t1"; "name" := PStr "Research" ]})) ()
             (TagsClient.create "Research"))
    = Ok (KnowledgeTag.mk "t1" "Research" None None None None).
Proof.
  split; [reflexivity|].
  exact (f_equal value (create_research_scenario (always _) () () eq_refl)).
Defined.

(** [create] with a valid name. *)
Lemma one_transport_call_witness :
  passes_local_validation (invoke (Create "Research"))
  ∧ ∃ r, ∀ S (t : transport S) (s : S),
      calls (run t s (invoke (Create "Research"))) = [r]
      ∧ ∀ s' e, answers t s r s' (inl e) →
                run t s (invoke (Create "Research"))
                  = Outcome s' [r] (Raised (TransportError e)).
Proof.
  assert (passes_local_validation (invoke (Create "Research"))) as Hpass
    by (intros e; discriminate).
  split; [exact Hpass|].
  exact (one_transport_call (Create "Research") Hpass).
Defined.

(** A not-found error of the transport comes out of [create] as it is. *)
Example create_propagates_not_found :
  run (failing (DifyNotFoundError "gone")) () (TagsClient.create "Research")
    = Outcome ()
        [Request POST "/v1/datasets/tags" (Some (PDict {[ "name" := PStr "Research" ]}))]
        (Raised (TransportError (DifyNotFoundError "gone"))).
Proof. reflexivity. Qed.

(** The metadata list of a dataset, one field and the built-in switch. *)
Example list_metadata_scenario :
  value (run (always (PDict {[ "doc_metadata" :=
                                 PList [PDict {[ "id" := PStr "m1";
                                                 "type" := PStr "string";
                                                 "name" := PStr "source" ]}];
                               "built_in_field_enabled" := PBool true ]})) ()
           (TagsClient.list_metadata "ds1"))
    = Ok (MetadataListResponse.mk [Metadata.mk "m1" "string" "source" None] true).
Proof. reflexivity. Qed.

(** An action outside {"enable", "disable"} is not rejected locally: the
    POST is made with the action in its path. *)
Lemma toggle_unknown_action_reaches_transport :
  "bogus" ≠ "enable" ∧ "bogus" ≠ "disable"
  ∧ (¬ fails_locally (TagsClient.toggle_built_in_metadata "ds1" "bogus") ValidationError)
  ∧ run (always (PDict ∅)) () (TagsClient.toggle_built_in_metadata "ds1" "bogus")
      = Outcome () [Request POST "/v1/datasets/ds1/metadata/built-in/bogus" None]
          (Ok (PDict ∅)).
Proof.
  split; [done|]. split; [done|]. split; [|reflexivity].
  intros Hfails. specialize (Hfails unit (always (PDict ∅)) ()). discriminate Hfails.
Qed.

(** An empty list of tag ids is not rejected locally: the POST is made with
    an empty "tag_ids". *)
Lemma bind_empty_tag_ids_reaches_transport :
  (¬ fails_locally (TagsClient.bind_to_dataset "ds1" []) ValidationError)
  ∧ run (always (PDict ∅)) () (TagsClient.bind_to_dataset "ds1" [])
      = Outcome ()
          [Request POST "/v1/datasets/tags/binding"
             (Some (PDict {[ "tag_ids" := PList []; "target_id" := PStr "ds1" ]}))]
          (Ok (PDict ∅)).
Proof.
  split; [|reflexivity].
  intros Hfails. specialize (Hfails unit (always (PDict ∅)) ()). discriminate Hfails.
Qed.

(** A mapping whose required fields are present and well shaped is still
    rejected when an optional field has the wrong shape. *)
Lemma optional_field_of_wrong_shape_is_rejected :
  let data : pydict :=
    {[ "id" := PStr "t1"; "name" := PStr "Research"; "color" := PInt 5 ]} in
  KnowledgeTag_required_ok data = true
  ∧ KnowledgeTag_init data = Raised ValidationError.
Proof. split; reflexivity. Qed.

(** * Further properties of the facade *)

Section further_properties.
Context {lax : LaxCoercion}.

Local Abbreviation parse_tag := (λ tag, kwargs tag ≫= KnowledgeTag_init).

(** What a method does once its request is built: one call, and the
    answer either raised as it is or handed to the parser. *)
Lemma run_send_then {S A} (t : transport S) (s : S) (r : request) (f : pyval → result A) :
  run t s (BaseClient.send r ≫= λ response, lift (f response)) =
    Outcome (t s r).1 [r]
      match (t s r).2 with
      | inl e => Raised (TransportError e)
      | inr v => f v
      end.
Proof.
  cbn. destruct (t s r) as [s' [e|v]]; cbn; [done|]. by rewrite run_lift.
Qed.

Lemma run_send_only {S} (t : transport S) (s : S) (r : request) :
  run t s (BaseClient.send r) =
    Outcome (t s r).1 [r]
      match (t s r).2 with
      | inl e => Raised (TransportError e)
      | inr v => Ok v
      end.
Proof. cbn. by destruct (t s r) as [s' [e|v]]. Qed.

Lemma parse_tag_raises (item : pyval) (e : exn) :
  parse_tag item = Raised e → e = TypeError ∨ e = ValidationError.
Proof.
  destruct item; cbn; try (intros [= <-]; by left).
  intros Hinit. right. by eapply KnowledgeTag_init_raises.
Qed.

Lemma mapM_first_failure {A B} (f : A → result B) (good : list A) (bad : A)
    (rest : list A) (out : list B) (e : exn) :
  Forall2 (λ x y, f x = Ok y) good out →
  f bad = Raised e →
  mapM f (good ++ bad :: rest) = Raised e.
Proof.
  intros Hgood Hbad. induction Hgood as [|x y good out Hx _ IH]; cbn.
  - by rewrite Hbad.
  - rewrite Hx. cbn. cbn in IH. by rewrite IH.
Qed.

(** X1.  On a bare array, [list()] returns a sequence exactly when every
    item parses as a tag, and then the sequence has the parsed items in the
    order of the array, one for one: there is no partial result and no
    item is skipped. *)
Theorem list_all_or_nothing {S} (t : transport S) (s s' : S) (items : list pyval)
    (out : list KnowledgeTag.t) :
  answers t s (Request GET "/v1/datasets/tags" None) s' (inr (PList items)) →
  (value (run t s TagsClient.list_) = Ok out
   ↔ Forall2 (λ item tag, parse_tag item = Ok tag) items out)
  ∧ (value (run t s TagsClient.list_) = Ok out → length out = length items).
Proof.
  intros Ht. rewrite (list_on_bare_array _ _ _ _ Ht). cbn [value].
  split; [apply mapM_Ok_Forall2|].
  intros Hout. apply mapM_Ok_Forall2 in Hout. symmetry. by eapply Forall2_length.
Qed.

(** X2.  When an item of the array does not parse, [list()] raises the
    error of the first such item, after the one GET: a type error when the
    item is not a mapping, a validation error when it is a mapping that
    the schema rejects.  The items after it are not looked at. *)
Theorem list_raises_first_failure {S} (t : transport S) (s s' : S)
    (good : list pyval) (bad : pyval) (rest : list pyval)
    (tags : list KnowledgeTag.t) (e : exn) :
  answers t s (Request GET "/v1/datasets/tags" None) s' (inr (PList (good ++ bad :: rest))) →
  Forall2 (λ item tag, parse_tag item = Ok tag) good tags →
  parse_tag bad = Raised e →
  run t s TagsClient.list_ = Outcome s' [Request GET "/v1/datasets/tags" None] (Raised e)
  ∧ (e = TypeError ∨ e = ValidationError)
  ∧ (kwargs bad = Raised TypeError → e = TypeError).
Proof.
  intros Ht Hgood Hbad. rewrite (list_on_bare_array _ _ _ _ Ht).
  rewrite (mapM_first_failure _ _ _ _ _ _ Hgood Hbad).
  split; [done|]. split; [by apply (parse_tag_raises bad)|].
  intros Hkw. cbv beta in Hbad. rewrite Hkw in Hbad. cbn in Hbad. congruence.
Qed.

(** X3.  A response that is neither a list nor a dict (null, a number, a
    string, a boolean) makes [list()] and [get_dataset_tags(dataset_id)]
    raise an attribute error, after the one GET. *)
Theorem list_on_unexpected_response (v : pyval) :
  neither_list_nor_dict v = true →
  (∀ S (t : transport S) s s',
     answers t s (Request GET "/v1/datasets/tags" None) s' (inr v) →
     run t s TagsClient.list_ =
       Outcome s' [Request GET "/v1/datasets/tags" None] (Raised AttributeError))
  ∧ (∀ dataset_id S (t : transport S) s s',
     answers t s (Request GET ("/v1/datasets/" +:+ dataset_id +:+ "/tags") None) s' (inr v) →
     run t s (TagsClient.get_dataset_tags dataset_id) =
       Outcome s' [Request GET ("/v1/datasets/" +:+ dataset_id +:+ "/tags") None]
         (Raised AttributeError)).
Proof.
  intros Hv. split.
  - intros S t s s' Ht. unfold TagsClient.list_, BaseClient.get.
    rewrite (run_send_value _ _ _ _ _ _ Ht). by destruct v.
  - intros dataset_id S t s s' Ht. unfold TagsClient.get_dataset_tags, BaseClient.get.
    rewrite (run_send_value _ _ _ _ _ _ Ht). by destruct v.
Qed.

(** X4.  When the object's "data" is not a list, [list()] never returns a
    tag: it returns the empty sequence (an empty string, an empty dict) or
    raises a type error (null, a number, a boolean, a string or dict
    that is not empty). *)
Theorem list_data_not_a_list {S} (t : transport S) (s s' : S) (m : pydict) (v : pyval) :
  answers t s (Request GET "/v1/datasets/tags" None) s' (inr (PDict m)) →
  m !! "data" = Some v →
  is_list v = false →
  (value (run t s TagsClient.list_) = Ok []
   ∨ value (run t s TagsClient.list_) = Raised TypeError)
  ∧ (neither_list_nor_dict v = true → v ≠ PStr "" →
     value (run t s TagsClient.list_) = Raised TypeError).
Proof.
  intros Ht Hdata Hv. rewrite (list_on_object _ _ _ _ Ht), Hdata. cbn [value from_option id].
  destruct v as [| | | |str|l|m']; try done; cbn; try (split; [by right|done]).
  - destruct str as [|c str]; cbn; [split; [by left|done]|].
    split; [by right|done].
  - split; [|done]. destruct (map_to_list m') as [|[k x] kvs]; cbn; [by left|by right].
Qed.

(** X5.  [get_dataset_tags(dataset_id)] reads its answer the way [list()]
    does: on the same answer of the transport, a value or a raised error,
    both return or raise the same. *)
Theorem get_dataset_tags_reads_as_list (dataset_id : string)
    {S S'} (t : transport S) (t' : transport S') (s s1 : S) (s' s1' : S')
    (a : transport_error + pyval) :
  answers t s (Request GET "/v1/datasets/tags" None) s1 a →
  answers t' s' (Request GET ("/v1/datasets/" +:+ dataset_id +:+ "/tags") None) s1' a →
  value (run t' s' (TagsClient.get_dataset_tags dataset_id))
    = value (run t s TagsClient.list_).
Proof.
  unfold answers. intros Ht Ht'.
  unfold TagsClient.get_dataset_tags, TagsClient.list_, BaseClient.get. cbn.
  rewrite Ht, Ht'. destruct a as [e|v]; [done|]. cbn.
  by destruct v; rewrite !run_lift.
Qed.

(** *** The requests of the remaining methods *)

Lemma DeleteKnowledgeTagRequest_of_id (tag_id : string) :
  DeleteKnowledgeTagRequest_init {[ "tag_id" := PStr tag_id ]}
    = Ok (DeleteKnowledgeTagRequest.mk tag_id).
Proof. unfold DeleteKnowledgeTagRequest_init, required. by rewrite lookup_singleton_eq. Qed.

Lemma UnbindDatasetFromTagRequest_of_ids (dataset_id tag_id : string) :
  UnbindDatasetFromTagRequest_init
    {[ "tag_id" := PStr tag_id; "target_id" := PStr dataset_id ]}
    = Ok (UnbindDatasetFromTagRequest.mk tag_id dataset_id).
Proof.
  unfold UnbindDatasetFromTagRequest_init, required. rewrite lookup_insert_eq.
  rewrite lookup_insert_ne by done. by rewrite lookup_singleton_eq.
Qed.

Lemma CreateMetadataRequest_of_strings (field_type name : string) :
  CreateMetadataRequest_init {[ "type" := PStr field_type; "name" := PStr name ]}
    = Ok (CreateMetadataRequest.mk field_type name).
Proof.
  unfold CreateMetadataRequest_init, required. rewrite lookup_insert_eq.
  rewrite lookup_insert_ne by done. by rewrite lookup_singleton_eq.
Qed.

Lemma UpdateMetadataRequest_of_name (name : string) :
  UpdateMetadataRequest_init {[ "name" := PStr name ]} = Ok (UpdateMetadataRequest.mk name).
Proof. unfold UpdateMetadataRequest_init, required. by rewrite lookup_singleton_eq. Qed.

(** X6.  With a name of at most 50 characters, [create(name)] makes one
    POST to /v1/datasets/tags with body {"name": name}.  A transport error
    is raised as it is; a returned value is parsed as a tag, so a value
    that is no mapping (type error) or no well-formed tag (validation
    error) makes [create] raise after the request has been made. *)
Theorem create_outcome (name : string) {S} (t : transport S) (s : S) :
  (String.length name ≤ 50)%nat →
  run t s (TagsClient.create name) =
    let r := Request POST "/v1/datasets/tags" (Some (PDict {[ "name" := PStr name ]})) in
    Outcome (t s r).1 [r]
      match (t s r).2 with
      | inl e => Raised (TransportError e)
      | inr v => kwargs v ≫= KnowledgeTag_init
      end.
Proof.
  intros Hlen. unfold TagsClient.create. rewrite CreateKnowledgeTagRequest_of_name.
  assert ((50 <? String.length name)%nat = false) as -> by (apply Nat.ltb_ge; lia).
  rewrite lift_bind_Ok. unfold BaseClient.post. by rewrite run_send_then.
Qed.

(** X7.  With a name of at most 50 characters, [update(tag_id, name)]
    makes one PATCH to /v1/datasets/tags with body
    {"name": name, "tag_id": tag_id}, whatever the tag id; the answer is
    raised or parsed as for [create]. *)
Theorem update_outcome (tag_id name : string) {S} (t : transport S) (s : S) :
  (String.length name ≤ 50)%nat →
  run t s (TagsClient.update tag_id name) =
    let r := Request PATCH "/v1/datasets/tags"
               (Some (PDict {[ "name" := PStr name; "tag_id" := PStr tag_id ]})) in
    Outcome (t s r).1 [r]
      match (t s r).2 with
      | inl e => Raised (TransportError e)
      | inr v => kwargs v ≫= KnowledgeTag_init
      end.
Proof.
  intros Hlen. unfold TagsClient.update. rewrite UpdateKnowledgeTagRequest_of_name.
  assert ((50 <? String.length name)%nat = false) as -> by (apply Nat.ltb_ge; lia).
  rewrite lift_bind_Ok. unfold BaseClient.patch. by rewrite run_send_then.
Qed.

(** X8.  [delete(tag_id)] rejects no tag id locally, the empty string
    neither: it makes one DELETE to /v1/datasets/tags, the id travelling in
    the body {"tag_id": tag_id} and not in the path, and it returns the
    transport's value unread, mapping or not. *)
Theorem delete_outcome (tag_id : string) {S} (t : transport S) (s : S) :
  run t s (TagsClient.delete tag_id) =
    let r := Request DELETE "/v1/datasets/tags"
               (Some (PDict {[ "tag_id" := PStr tag_id ]})) in
    Outcome (t s r).1 [r]
      match (t s r).2 with
      | inl e => Raised (TransportError e)
      | inr v => Ok v
      end.
Proof.
  unfold TagsClient.delete. rewrite DeleteKnowledgeTagRequest_of_id, lift_bind_Ok.
  unfold BaseClient.delete. by rewrite run_send_only.
Qed.

(** X9.  [unbind_from_dataset(dataset_id, tag_id)] rejects nothing
    locally: it makes one POST to /v1/datasets/tags/unbinding whose body
    carries the single tag id and the dataset id under the key
    "target_id", and it returns the transport's value unread. *)
Theorem unbind_outcome (dataset_id tag_id : string) {S} (t : transport S) (s : S) :
  run t s (TagsClient.unbind_from_dataset dataset_id tag_id) =
    let r := Request POST "/v1/datasets/tags/unbinding"
               (Some (PDict {[ "tag_id" := PStr tag_id; "target_id" := PStr dataset_id ]})) in
    Outcome (t s r).1 [r]
      match (t s r).2 with
      | inl e => Raised (TransportError e)
      | inr v => Ok v
      end.
Proof.
  unfold TagsClient.unbind_from_dataset.
  rewrite UnbindDatasetFromTagRequest_of_ids, lift_bind_Ok.
  unfold BaseClient.post. by rewrite run_send_only.
Qed.

(** X10.  [create_metadata(dataset_id, field_type, name)] checks neither
    the field type against a set of types nor the length of the name: for
    all three strings it makes one POST to /v1/datasets/{dataset_id}/metadata
    with the field type under the key "type", and parses the answer as a
    [Metadata]. *)
Theorem create_metadata_outcome (dataset_id field_type name : string)
    {S} (t : transport S) (s : S) :
  run t s (TagsClient.create_metadata dataset_id field_type name) =
    let r := Request POST ("/v1/datasets/" +:+ dataset_id +:+ "/metadata")
               (Some (PDict {[ "type" := PStr field_type; "name" := PStr name ]})) in
    Outcome (t s r).1 [r]
      match (t s r).2 with
      | inl e => Raised (TransportError e)
      | inr v => kwargs v ≫= Metadata_init
      end.
Proof.
  unfold TagsClient.create_metadata.
  rewrite CreateMetadataRequest_of_strings, lift_bind_Ok.
  unfold BaseClient.post. by rewrite run_send_then.
Qed.

(** X11.  [update_metadata(dataset_id, metadata_id, name)] accepts every
    name, of any length (the limit of 50 characters is on tag names only):
    it makes one PATCH to /v1/datasets/{dataset_id}/metadata/{metadata_id}
    with body {"name": name}, and parses the answer as a [Metadata]. *)
Theorem update_metadata_outcome (dataset_id metadata_id name : string)
    {S} (t : transport S) (s : S) :
  run t s (TagsClient.update_metadata dataset_id metadata_id name) =
    let r := Request PATCH
               ("/v1/datasets/" +:+ dataset_id +:+ "/metadata/" +:+ metadata_id)
               (Some (PDict {[ "name" := PStr name ]})) in
    Outcome (t s r).1 [r]
      match (t s r).2 with
      | inl e => Raised (TransportError e)
      | inr v => kwargs v ≫= Metadata_init
      end.
Proof.
  unfold TagsClient.update_metadata. rewrite UpdateMetadataRequest_of_name, lift_bind_Ok.
  unfold BaseClient.patch. by rewrite run_send_then.
Qed.

(** X12.  [list_metadata(dataset_id)] has no fallback for a missing key:
    an answer without "doc_metadata" or without "built_in_field_enabled"
    raises a validation error after the one GET; and when it returns, the
    fields it returns are the parsed items of "doc_metadata", one for one
    and in order. *)
Theorem list_metadata_needs_both_fields (dataset_id : string) {S} (t : transport S)
    (s s' : S) (m : pydict) :
  answers t s (Request GET ("/v1/datasets/" +:+ dataset_id +:+ "/metadata") None) s'
    (inr (PDict m)) →
  calls (run t s (TagsClient.list_metadata dataset_id))
    = [Request GET ("/v1/datasets/" +:+ dataset_id +:+ "/metadata") None]
  ∧ (m !! "doc_metadata" = None ∨ m !! "built_in_field_enabled" = None →
     value (run t s (TagsClient.list_metadata dataset_id)) = Raised ValidationError)
  ∧ (∀ r, value (run t s (TagsClient.list_metadata dataset_id)) = Ok r →
     ∃ l, m !! "doc_metadata" = Some (PList l)
          ∧ Forall2 (λ v md, model_schema Metadata_init v = Ok md) l
              (MetadataListResponse.doc_metadata r)).
Proof.
  intros Ht. unfold TagsClient.list_metadata, BaseClient.get.
  rewrite (run_send_lift _ _ _ _ _ _ Ht). cbn [calls value kwargs mbind result_bind].
  split; [done|]. unfold MetadataListResponse_init, required. split.
  - intros [Hnone|Hnone].
    + by rewrite Hnone.
    + rewrite Hnone. destruct (m !! "doc_metadata") as [v|]; [|done].
      cbn. destruct (list_schema _ v) as [l|e] eqn:Hl; [done|]. cbn. f_equal.
      eapply validating_list; [|exact Hl].
      apply validating_model, Metadata_init_raises.
  - intros r. destruct (m !! "doc_metadata") as [[| | | | |l|]|]; try done. cbn.
    destruct (mapM (model_schema Metadata_init) l) as [mds|e] eqn:Hl; [|done]. cbn.
    destruct (m !! "built_in_field_enabled") as [b|]; [|done].
    destruct (bool_schema b); [|done]. cbn. intros [= <-]. exists l.
    split; [done|]. by apply mapM_Ok_Forall2.
Qed.

(** *** What is rejected before the transport *)

Lemma converted_data_rejected (operation_data : list operation_item) :
  existsb (λ item,
             match item with
             | RawItem m => negb (is_ok (DocumentMetadata_init m))
             | ModelItem _ => false
             end) operation_data = true →
  mapM (λ item,
          match item with
          | RawItem item => DocumentMetadata_init item
          | ModelItem item => Ok item
          end) operation_data = Raised ValidationError.
Proof.
  intros Hbad.
  destruct (mapM _ operation_data) as [converted|e] eqn:Hconv.
  - exfalso. apply mapM_Ok_Forall2 in Hconv.
    apply existsb_exists in Hbad as (item & Hin & Hitem).
    apply list_elem_of_In, list_elem_of_lookup in Hin as [i Hi].
    destruct (Forall2_lookup_l _ _ _ _ _ Hconv Hi) as (d & _ & Hd).
    destruct item as [m|d']; [|done]. by rewrite Hd in Hitem.
  - f_equal. by eapply converted_data_raises.
Qed.

Lemma converted_data_accepted (operation_data : list operation_item) :
  existsb (λ item,
             match item with
             | RawItem m => negb (is_ok (DocumentMetadata_init m))
             | ModelItem _ => false
             end) operation_data = false →
  ∃ converted,
    mapM (λ item,
            match item with
            | RawItem item => DocumentMetadata_init item
            | ModelItem item => Ok item
            end) operation_data = Ok converted.
Proof.
  induction operation_data as [|item l IH]; cbn; [by eexists|].
  intros [Hitem Hl]%orb_false_elim. destruct (IH Hl) as [converted ->].
  destruct item as [m|d]; cbn.
  - destruct (DocumentMetadata_init m); [by eexists|done].
  - by eexists.
Qed.

(** X13.  Over all thirteen methods, the inputs stopped before the
    transport are these and no others: a tag name of more than 50
    characters in [create] and [update], and an [operation_data] with a raw
    mapping that is no [DocumentMetadata].  They fail with a validation
    error and no call; every other input reaches the transport. *)
Theorem local_rejection (c : method_call) :
  (rejects c = true → fails_locally (invoke c) ValidationError)
  ∧ (rejects c = false → passes_local_validation (invoke c)).
Proof.
  destruct c; cbn [invoke rejects]; (split; [intros Hrej S t s|intros Hrej e]);
    try discriminate Hrej;
    unfold TagsClient.create, TagsClient.list_, TagsClient.update, TagsClient.delete,
      TagsClient.bind_to_dataset, TagsClient.unbind_from_dataset,
      TagsClient.get_dataset_tags, TagsClient.create_metadata,
      TagsClient.update_metadata, TagsClient.delete_metadata,
      TagsClient.toggle_built_in_metadata, TagsClient.update_document_metadata,
      TagsClient.list_metadata;
    rewrite ?CreateKnowledgeTagRequest_of_name, ?UpdateKnowledgeTagRequest_of_name,
      ?DeleteKnowledgeTagRequest_of_id, ?BindDatasetToTagRequest_of_ids,
      ?UnbindDatasetFromTagRequest_of_ids, ?CreateMetadataRequest_of_strings,
      ?UpdateMetadataRequest_of_name;
    first [ by rewrite Hrej
          | by rewrite (converted_data_rejected _ Hrej)
          | by destruct (converted_data_accepted _ Hrej) as [converted ->]
          | done ].
Qed.

(** *** What a parsed tag holds *)

Lemma required_str_Ok (data : pydict) (key : string) (x : string) :
  required data key (str_schema None) = Ok x ↔ data !! key = Some (PStr x).
Proof.
  unfold required. destruct (data !! key) as [[| | | |y| |]|]; cbn; split; try done.
  - by intros [= ->].
  - by intros [= ->].
Qed.

Lemma optional_str_Ok (data : pydict) (key : string) (o : option string) :
  with_default data key (nullable (str_schema None)) None = Ok o →
  (o = None ↔ data !! key = None ∨ data !! key = Some PNone)
  ∧ (∀ x, o = Some x ↔ data !! key = Some (PStr x)).
Proof.
  unfold with_default. destruct (data !! key) as [[| | | |y| |]|]; cbn; try done.
  - intros [= <-]. split; [split; [by right|done]|]. by split.
  - intros [= <-]. split; [by split; [|intros [|]]|].
    intros x. split; by intros [= ->].
  - intros [= <-]. split; [split; [by left|done]|]. by split.
Qed.

(** X14.  A tag that parses holds the mapping's own "id" and "name",
    which are strings there, of any length; its color is absent exactly
    when the mapping has no "color" or has null for it, and is a string
    exactly when the mapping has that string. *)
Theorem KnowledgeTag_init_reads_fields (data : pydict) (tag : KnowledgeTag.t) :
  KnowledgeTag_init data = Ok tag →
  data !! "id" = Some (PStr (KnowledgeTag.id tag))
  ∧ data !! "name" = Some (PStr (KnowledgeTag.name tag))
  ∧ (KnowledgeTag.color tag = None
     ↔ data !! "color" = None ∨ data !! "color" = Some PNone)
  ∧ (∀ c, KnowledgeTag.color tag = Some c ↔ data !! "color" = Some (PStr c)).
Proof.
  unfold KnowledgeTag_init.
  destruct (required data "id" _) as [i|] eqn:Hid; cbn [mbind result_bind]; [|done].
  destruct (required data "name" _) as [n|] eqn:Hname; cbn [mbind result_bind]; [|done].
  destruct (with_default data "color" _ _) as [c|] eqn:Hcolor;
    cbn [mbind result_bind]; [|done].
  destruct (with_default data "created_at" _ _); cbn [mbind result_bind]; [|done].
  destruct (with_default data "updated_at" _ _); cbn [mbind result_bind]; [|done].
  destruct (with_default data "binding_count" _ _); cbn [mbind result_bind]; [|done].
  intros [= <-]. cbn.
  apply required_str_Ok in Hid, Hname. apply optional_str_Ok in Hcolor as [Hnone Hsome].
  done.
Qed.

Lemma with_default_insert_null {A} (data : pydict) (key : string)
    (schema : pyval → result A) :
  with_default (<[key:=PNone]> data) key (nullable schema) None = Ok None.
Proof. unfold with_default. by rewrite lookup_insert_eq. Qed.

Lemma with_default_delete {A} (data : pydict) (key : string)
    (schema : pyval → result A) (d : A) :
  with_default (delete key data) key schema d = Ok d.
Proof. unfold with_default. by rewrite lookup_delete_eq. Qed.

Lemma required_delete_ne {A} (data : pydict) (k key : string)
    (schema : pyval → result A) :
  k ≠ key → required (delete k data) key schema = required data key schema.
Proof. intros Hne. unfold required. by rewrite lookup_delete_ne. Qed.

Lemma with_default_delete_ne {A} (data : pydict) (k key : string)
    (schema : pyval → result A) (d : A) :
  k ≠ key → with_default (delete k data) key schema d = with_default data key schema d.
Proof. intros Hne. unfold with_default. by rewrite lookup_delete_ne. Qed.

(** X15.  For an optional field of [KnowledgeTag] ("color", "created_at",
    "updated_at", "binding_count") and of [Metadata] ("use_count"), null is
    the same as absent: the mapping with null under the key parses as the
    mapping without the key does. *)
Theorem null_is_absent (data : pydict) (key : string) :
  (key ∈ ["color"; "created_at"; "updated_at"; "binding_count"] →
   KnowledgeTag_init (<[key:=PNone]> data) = KnowledgeTag_init (delete key data))
  ∧ (key = "use_count" →
     Metadata_init (<[key:=PNone]> data) = Metadata_init (delete key data)).
Proof.
  split.
  - intros Hkey. repeat (apply elem_of_cons in Hkey as [->|Hkey]);
      [..|by apply elem_of_nil in Hkey];
      unfold KnowledgeTag_init;
      rewrite with_default_insert_null, with_default_delete;
      rewrite !required_insert_ne, !required_delete_ne by done;
      by rewrite !with_default_insert_ne, !with_default_delete_ne by done.
  - intros ->. unfold Metadata_init.
    rewrite with_default_insert_null, with_default_delete.
    by rewrite !required_insert_ne, !required_delete_ne by done.
Qed.

Lemma required_name_Ok (data : pydict) (name : string) :
  required data "name" (str_schema (Some 50%nat)) = Ok name
  ↔ data !! "name" = Some (PStr name) ∧ (String.length name ≤ 50)%nat.
Proof.
  unfold required, str_schema.
  destruct (data !! "name") as [[| | | |y| |]|]; try (split; [done|by intros [? ?]]).
  destruct (50 <? String.length y)%nat eqn:Hlen.
  - apply Nat.ltb_lt in Hlen. split; [done|]. intros [[= ->] ?]. lia.
  - apply Nat.ltb_ge in Hlen. split; [by intros [= ->]|]. by intros [[= ->] _].
Qed.

(** X16.  The request of [create] is built from a mapping exactly when
    its "name" is a string of at most 50 characters, and then holds that
    string; a number or null under "name" is not turned into a name.  The
    request of [update] asks the same of "name" and a string under
    "tag_id", of any length. *)
Theorem tag_requests_built (data : pydict) :
  (∀ r, CreateKnowledgeTagRequest_init data = Ok r
        ↔ ∃ name, data !! "name" = Some (PStr name)
                  ∧ (String.length name ≤ 50)%nat
                  ∧ r = CreateKnowledgeTagRequest.mk name)
  ∧ (∀ r, UpdateKnowledgeTagRequest_init data = Ok r
          ↔ ∃ name tag_id, data !! "name" = Some (PStr name)
                           ∧ (String.length name ≤ 50)%nat
                           ∧ data !! "tag_id" = Some (PStr tag_id)
                           ∧ r = UpdateKnowledgeTagRequest.mk name tag_id).
Proof.
  split; intros r.
  - unfold CreateKnowledgeTagRequest_init.
    destruct (required data "name" _) as [name|e] eqn:Hreq; cbn [mbind result_bind]; unfold mret, result_ret.
    + apply required_name_Ok in Hreq as [Hlook Hlen]. split.
      * intros [= <-]. by exists name.
      * intros (name' & Hlook' & _ & ->). congruence.
    + split; [done|]. intros (name & Hlook & Hlen & _).
      assert (required data "name" (str_schema (Some 50%nat)) = Ok name) as Hok
        by by apply required_name_Ok.
      congruence.
  - unfold UpdateKnowledgeTagRequest_init.
    destruct (required data "name" _) as [name|e] eqn:Hreq; cbn [mbind result_bind]; unfold mret, result_ret.
    + apply required_name_Ok in Hreq as [Hlook Hlen].
      destruct (required data "tag_id" _) as [tag_id|e] eqn:Hid; cbn [mbind result_bind]; unfold mret, result_ret.
      * apply required_str_Ok in Hid. split.
        -- intros [= <-]. by exists name, tag_id.
        -- intros (name' & tag_id' & Hlook' & _ & Hid' & ->). congruence.
      * split; [done|]. intros (name' & tag_id' & _ & _ & Hid' & _).
        apply required_str_Ok in Hid'. congruence.
    + split; [done|]. intros (name & tag_id & Hlook & Hlen & _).
      assert (required data "name" (str_schema (Some 50%nat)) = Ok name) as Hok
        by by apply required_name_Ok.
      congruence.
Qed.

(** *** Dumps and raw mappings of a document's metadata *)

(** X17.  A dump constructs the instance it came from, for a metadata
    value and for a document's metadata; so two documents' metadata with
    the same dump are the same, and the body sent by
    [update_document_metadata] determines the list of instances. *)
Theorem model_dump_round_trip :
  (∀ v, model_schema MetadataValue_init (MetadataValue_model_dump v) = Ok v)
  ∧ (∀ d, model_schema DocumentMetadata_init (DocumentMetadata_model_dump d) = Ok d)
  ∧ (∀ d1 d2, DocumentMetadata_model_dump d1 = DocumentMetadata_model_dump d2 → d1 = d2)
  ∧ (∀ r1 r2, UpdateDocumentMetadataRequest_model_dump r1
                = UpdateDocumentMetadataRequest_model_dump r2 → r1 = r2).
Proof.
  assert (∀ d1 d2, DocumentMetadata_model_dump d1 = DocumentMetadata_model_dump d2 → d1 = d2)
    as Hinj.
  { intros d1 d2 Hdump.
    pose proof (DocumentMetadata_init_model_dump d1) as H1.
    rewrite Hdump, DocumentMetadata_init_model_dump in H1. congruence. }
  split; [apply MetadataValue_init_model_dump|].
  split; [apply DocumentMetadata_init_model_dump|].
  split; [exact Hinj|].
  intros [l1] [l2]. unfold UpdateDocumentMetadataRequest_model_dump.
  cbn [UpdateDocumentMetadataRequest.operation_data].
  intros Hmap.
  apply (f_equal (λ v, match v with PDict m => m !! "operation_data" | _ => None end))
    in Hmap.
  cbv beta iota in Hmap. rewrite !lookup_singleton_eq in Hmap.
  injection Hmap as Hl. f_equal.
  by apply (list_fmap_eq_inj DocumentMetadata_model_dump Hinj).
Qed.

Lemma exact_entry_dump (v : pyval) (mv : MetadataValue.t) :
  exact_entry v →
  model_schema MetadataValue_init v = Ok mv →
  MetadataValue_model_dump mv = v.
Proof.
  destruct v as [| | | | | |m]; try done. cbn [exact_entry model_schema].
  intros Hdom. unfold MetadataValue_init.
  destruct (required m "id" _) as [i|] eqn:Hid; cbn [mbind result_bind]; [|done].
  destruct (required m "value" _) as [x|] eqn:Hvalue; cbn [mbind result_bind]; [|done].
  destruct (required m "name" _) as [n|] eqn:Hname; cbn [mbind result_bind]; [|done].
  intros [= <-]. apply required_str_Ok in Hid, Hvalue, Hname.
  unfold MetadataValue_model_dump. cbn. f_equal. apply map_eq. intros k.
  destruct (decide (k = "id")) as [->|Hk1]; [by rewrite lookup_insert_eq|].
  rewrite lookup_insert_ne by done.
  destruct (decide (k = "value")) as [->|Hk2]; [by rewrite lookup_insert_eq|].
  rewrite lookup_insert_ne by done.
  destruct (decide (k = "name")) as [->|Hk3]; [by rewrite lookup_singleton_eq|].
  rewrite lookup_singleton_ne by done. symmetry. apply not_elem_of_dom.
  rewrite Hdom. unfold MetadataValue_keys.
  by rewrite !not_elem_of_union, !not_elem_of_singleton.
Qed.

Lemma exact_entries_dump (l : list pyval) (mvs : list MetadataValue.t) :
  Forall exact_entry l →
  Forall2 (λ v mv, model_schema MetadataValue_init v = Ok mv) l mvs →
  MetadataValue_model_dump <$> mvs = l.
Proof.
  intros Hexact Hall. induction Hall as [|v mv l mvs Hv _ IH]; [done|].
  apply Forall_cons in Hexact as [Hentry Hexact]. cbn.
  f_equal; [by apply exact_entry_dump|by apply IH].
Qed.

(** X18.  A raw mapping that holds exactly the keys "document_id" and
    "metadata_list", with entries that hold exactly "id", "value" and
    "name", comes back from construction and dump as it was: what is sent
    for it is the mapping itself. *)
Theorem exact_document_round_trip (raw : pydict) (d : DocumentMetadata.t) :
  exact_document raw →
  DocumentMetadata_init raw = Ok d →
  DocumentMetadata_model_dump d = PDict raw.
Proof.
  intros [Hdom Hentries] Hinit.
  apply DocumentMetadata_init_in_order in Hinit as (Hdoc & l & Hlist & Hall).
  specialize (Hentries l Hlist).
  unfold DocumentMetadata_model_dump. rewrite (exact_entries_dump _ _ Hentries Hall). f_equal. apply map_eq. intros k.
  destruct (decide (k = "document_id")) as [->|Hk1]; [by rewrite lookup_insert_eq|].
  rewrite lookup_insert_ne by done.
  destruct (decide (k = "metadata_list")) as [->|Hk2]; [by rewrite lookup_singleton_eq|].
  rewrite lookup_singleton_ne by done. symmetry. apply not_elem_of_dom.
  rewrite Hdom. unfold DocumentMetadata_keys.
  by rewrite not_elem_of_union, !not_elem_of_singleton.
Qed.

Lemma DocumentMetadata_init_ignores (m : pydict) (k : string) (v : pyval) :
  k ∉ DocumentMetadata_keys →
  DocumentMetadata_init (<[k:=v]> m) = DocumentMetadata_init m.
Proof.
  unfold DocumentMetadata_keys. intros Hk.
  rewrite not_elem_of_union, !not_elem_of_singleton in Hk. destruct Hk as [Hk1 Hk2].
  unfold DocumentMetadata_init. by rewrite !required_insert_ne.
Qed.

(** X19.  A key of a raw item that [DocumentMetadata] does not declare
    never reaches the transport: with or without it, at any position of
    [operation_data], [update_document_metadata] is the same computation,
    so the same body is sent. *)
Theorem raw_item_extra_key_dropped (dataset_id : string)
    (before after : list operation_item) (m : pydict) (k : string) (v : pyval) :
  k ∉ DocumentMetadata_keys →
  TagsClient.update_document_metadata dataset_id (before ++ RawItem (<[k:=v]> m) :: after)
    = TagsClient.update_document_metadata dataset_id (before ++ RawItem m :: after).
Proof.
  intros Hk. unfold TagsClient.update_document_metadata. do 2 f_equal.
  induction before as [|item before IH]; cbn.
  - by rewrite (DocumentMetadata_init_ignores _ _ _ Hk).
  - cbn in IH. by rewrite IH.
Qed.

(** *** Paths *)

Lemma append_assoc (a b c : string) : (a +:+ b) +:+ c = a +:+ (b +:+ c).
Proof.
  induction a as [|x a IH]; [done|].
  change (String x ((a +:+ b) +:+ c) = String x (a +:+ (b +:+ c))). by rewrite IH.
Qed.

(** X20.  The ids are put into the path as they are, without escaping:
    a dataset id that contains "/metadata/" and a metadata id that
    contains it give the same request, so [delete_metadata] and
    [update_metadata] cannot tell (a/metadata/b, c) from (a, b/metadata/c). *)
Theorem path_parameters_not_escaped (a b c : string) :
  TagsClient.delete_metadata (a +:+ "/metadata/" +:+ b) c
    = TagsClient.delete_metadata a (b +:+ "/metadata/" +:+ c)
  ∧ ∀ name, TagsClient.update_metadata (a +:+ "/metadata/" +:+ b) c name
            = TagsClient.update_metadata a (b +:+ "/metadata/" +:+ c) name.
Proof.
  assert ("/v1/datasets/" +:+ (a +:+ "/metadata/" +:+ b) +:+ "/metadata/" +:+ c
          = "/v1/datasets/" +:+ a +:+ "/metadata/" +:+ b +:+ "/metadata/" +:+ c) as Hpath.
  { by rewrite !append_assoc. }
  split; [|intros name].
  - unfold TagsClient.delete_metadata. by rewrite Hpath.
  - unfold TagsClient.update_metadata. by rewrite Hpath.
Qed.

Lemma length_append (a b : string) :
  String.length (a +:+ b) = (String.length a + String.length b)%nat.
Proof.
  induction a as [|x a IH]; [done|].
  change (S (String.length (a +:+ b)) = S (String.length a + String.length b)).
  by rewrite IH.
Qed.

Lemma append_inj_l (a b c : string) : a +:+ c = b +:+ c → a = b.
Proof.
  revert b. induction a as [|x a IH]; intros [|y b] Heq.
  - done.
  - apply (f_equal String.length) in Heq. rewrite !length_append in Heq. cbn in Heq. lia.
  - apply (f_equal String.length) in Heq. rewrite !length_append in Heq. cbn in Heq. lia.
  - change (String x (a +:+ c) = String y (b +:+ c)) in Heq.
    injection Heq as -> Heq. f_equal. by apply IH.
Qed.

Lemma dataset_paths_inj (d1 d2 : string) {S} (t : transport S) (s : S) :
  (calls (run t s (TagsClient.get_dataset_tags d1))
     = calls (run t s (TagsClient.get_dataset_tags d2)) → d1 = d2)
  ∧ (calls (run t s (TagsClient.list_metadata d1))
       = calls (run t s (TagsClient.list_metadata d2)) → d1 = d2).
Proof.
  split.
  - unfold TagsClient.get_dataset_tags, BaseClient.get, BaseClient.send. cbn.
    destruct (t s _) as [s1 a1]. destruct (t s _) as [s2 a2]. cbn.
    intros Hcalls. injection Hcalls as Hpath _.
    change (d1 +:+ "/tags" = d2 +:+ "/tags") in Hpath. by apply append_inj_l in Hpath.
  - unfold TagsClient.list_metadata, BaseClient.get, BaseClient.send. cbn.
    destruct (t s _) as [s1 a1]. destruct (t s _) as [s2 a2]. cbn.
    intros Hcalls. injection Hcalls as Hpath _.
    change (d1 +:+ "/metadata" = d2 +:+ "/metadata") in Hpath.
    by apply append_inj_l in Hpath.
Qed.

(** X21.  The methods with the dataset id as their one path parameter
    keep datasets apart: for two different dataset ids, [get_dataset_tags]
    makes different requests, and so does [list_metadata], whatever
    characters the ids hold. *)
Theorem dataset_paths_distinct (d1 d2 : string) {S} (t : transport S) (s : S) :
  d1 ≠ d2 →
  calls (run t s (TagsClient.get_dataset_tags d1))
    ≠ calls (run t s (TagsClient.get_dataset_tags d2))
  ∧ calls (run t s (TagsClient.list_metadata d1))
      ≠ calls (run t s (TagsClient.list_metadata d2)).
Proof.
  intros Hne. destruct (dataset_paths_inj d1 d2 t s) as [Htags Hmeta].
  split; intros Hcalls; apply Hne; [by apply Htags|by apply Hmeta].
Qed.

(** *** Mappings that parse *)

Lemma mapM_str_schema_Ok (l : list pyval) (ids : list string) :
  mapM (str_schema None) l = Ok ids ↔ l = PStr <$> ids.
Proof.
  rewrite mapM_Ok_Forall2. split.
  - induction 1 as [|v x l ids Hv _ IH]; [done|]. cbn. f_equal; [|done].
    by destruct v; cbn in Hv; try done; injection Hv as ->.
  - intros ->. induction ids; by constructor.
Qed.

(** X22.  The request of [bind_to_dataset] is built from a mapping exactly
    when "tag_ids" is a list whose items are all strings and "target_id"
    is a string; it keeps the ids in order, repeated ids included.  A
    single string under "tag_ids" is not taken for a list. *)
Theorem bind_request_built (data : pydict) (r : BindDatasetToTagRequest.t) :
  BindDatasetToTagRequest_init data = Ok r
  ↔ data !! "tag_ids" = Some (PList (PStr <$> BindDatasetToTagRequest.tag_ids r))
    ∧ data !! "target_id" = Some (PStr (BindDatasetToTagRequest.target_id r)).
Proof.
  destruct r as [ids target]. cbn [BindDatasetToTagRequest.tag_ids
    BindDatasetToTagRequest.target_id].
  unfold BindDatasetToTagRequest_init.
  destruct (required data "tag_ids" _) as [ids'|e] eqn:Hids; cbn [mbind result_bind].
  - unfold required, list_schema in Hids.
    destruct (data !! "tag_ids") as [[| | | | |l|]|]; try done.
    apply mapM_str_schema_Ok in Hids as ->.
    destruct (required data "target_id" _) as [target'|e] eqn:Htarget;
      cbn [mbind result_bind]; unfold mret, result_ret.
    + apply required_str_Ok in Htarget. rewrite Htarget. split.
      * by intros [= -> ->].
      * intros [[= Hl] [= ->]]. apply (list_fmap_eq_inj PStr) in Hl; [by subst|].
        by intros ?? [= ->].
    + split; [done|]. intros [_ Htarget']. apply required_str_Ok in Htarget'. congruence.
  - split; [done|]. intros [Hids' _]. unfold required, list_schema in Hids.
    rewrite Hids' in Hids.
    assert (mapM (str_schema None) (PStr <$> ids) = Ok ids) as Hok
      by by apply mapM_str_schema_Ok.
    congruence.
Qed.

End further_properties.

(** * The further properties at concrete inputs *)

(** An array of two tags. *)
Lemma list_all_or_nothing_witness :
  let items := [PDict {[ "id" := PStr "t1"; "name" := PStr "Research" ]};
                PDict {[ "id" := PStr "t2"; "name" := PStr "Law"; "color" := PNone ]}] in
  let out := [KnowledgeTag.mk "t1" "Research" None None None None;
              KnowledgeTag.mk "t2" "Law" None None None None] in
  answers (always (PList items)) () (Request GET "/v1/datasets/tags" None) ()
    (inr (PList items))
  ∧ Forall2 (λ item tag, kwargs item ≫= KnowledgeTag_init = Ok tag) items out
  ∧ length out = length items.
Proof.
  intros items out.
  assert (answers (always (PList items)) () (Request GET "/v1/datasets/tags" None) ()
            (inr (PList items))) as Ht by reflexivity.
  split; [exact Ht|].
  destruct (list_all_or_nothing (always (PList items)) () () items out Ht) as [Hiff Hlen].
  split; [apply Hiff; reflexivity|apply Hlen; reflexivity].
Defined.

(** A well-formed tag, then a number, then a tag that is never read. *)
Lemma list_raises_first_failure_witness :
  let good := [PDict {[ "id" := PStr "t1"; "name" := PStr "Research" ]}] in
  let rest := [PDict {[ "id" := PStr "t3"; "name" := PStr "Law" ]}] in
  run (always (PList (good ++ PInt 7 :: rest))) () TagsClient.list_
    = Outcome () [Request GET "/v1/datasets/tags" None] (Raised TypeError).
Proof.
  intros good rest.
  refine (proj1 (list_raises_first_failure (always (PList (good ++ PInt 7 :: rest))) () ()
                   good (PInt 7) rest
                   [KnowledgeTag.mk "t1" "Research" None None None None] TypeError
                   eq_refl _ eq_refl)).
  repeat constructor.
Defined.

(** The transport answers null. *)
Lemma list_on_unexpected_response_witness :
  neither_list_nor_dict PNone = true
  ∧ run (always PNone) () TagsClient.list_
      = Outcome () [Request GET "/v1/datasets/tags" None] (Raised AttributeError).
Proof.
  split; [reflexivity|].
  exact (proj1 (list_on_unexpected_response PNone eq_refl) unit (always PNone) () () eq_refl).
Defined.

(** The object has null under "data". *)
Lemma list_data_not_a_list_witness :
  ({[ "data" := PNone ]} : pydict) !! "data" = Some PNone
  ∧ value (run (always (PDict {[ "data" := PNone ]})) () TagsClient.list_) = Raised TypeError.
Proof.
  split; [reflexivity|].
  refine (proj2 (list_data_not_a_list (always (PDict {[ "data" := PNone ]})) () ()
                   {[ "data" := PNone ]} PNone eq_refl eq_refl eq_refl) eq_refl _).
  discriminate.
Defined.

(** The same array answered to both methods. *)
Lemma get_dataset_tags_reads_as_list_witness :
  let a := PList [PDict {[ "id" := PStr "t1"; "name" := PStr "Research" ]}] in
  value (run (always a) () (TagsClient.get_dataset_tags "ds1"))
    = value (run (always a) () TagsClient.list_).
Proof.
  intros a.
  exact (get_dataset_tags_reads_as_list "ds1" (always a) (always a) () () () () (inr a)
           eq_refl eq_refl).
Defined.

(** A valid name, and an answer that is no mapping: the POST is made and
    [create] raises a type error. *)
Lemma create_outcome_witness :
  (String.length "Research" ≤ 50)%nat
  ∧ run (always (PList [])) () (TagsClient.create "Research")
      = Outcome ()
          [Request POST "/v1/datasets/tags" (Some (PDict {[ "name" := PStr "Research" ]}))]
          (Raised TypeError).
Proof.
  assert ((String.length "Research" ≤ 50)%nat) as Hlen by (vm_compute; lia).
  split; [exact Hlen|].
  exact (create_outcome "Research" (always (PList [])) () Hlen).
Defined.

(** A rename that the transport answers with the renamed tag. *)
Lemma update_outcome_witness :
  (String.length "Law" ≤ 50)%nat
  ∧ run (always (PDict {[ "id" := PStr "t1"; "name" := PStr "Law" ]})) ()
        (TagsClient.update "t1" "Law")
      = Outcome ()
          [Request PATCH "/v1/datasets/tags"
             (Some (PDict {[ "name" := PStr "Law"; "tag_id" := PStr "t1" ]}))]
          (Ok (KnowledgeTag.mk "t1" "Law" None None None None)).
Proof.
  assert ((String.length "Law" ≤ 50)%nat) as Hlen by (vm_compute; lia).
  split; [exact Hlen|].
  exact (update_outcome "t1" "Law" (always _) () Hlen).
Defined.

(** An answer without "built_in_field_enabled". *)
Lemma list_metadata_needs_both_fields_witness :
  ({[ "doc_metadata" := PList [] ]} : pydict) !! "built_in_field_enabled" = None
  ∧ value (run (always (PDict {[ "doc_metadata" := PList [] ]})) ()
             (TagsClient.list_metadata "ds1"))
    = Raised ValidationError.
Proof.
  split; [reflexivity|].
  exact (proj1 (proj2 (list_metadata_needs_both_fields "ds1"
                         (always (PDict {[ "doc_metadata" := PList [] ]})) () ()
                         {[ "doc_metadata" := PList [] ]} eq_refl))
           (or_intror eq_refl)).
Defined.

(** A raw item without "metadata_list" after a valid instance, and a
    deletion. *)
Lemma local_rejection_witness :
  let bad := UpdateDocumentMetadata "ds1"
               [ModelItem (DocumentMetadata.mk "d1" []);
                RawItem {[ "document_id" := PStr "d2" ]}] in
  (rejects bad = true ∧ fails_locally (invoke bad) ValidationError)
  ∧ (rejects (Delete "t1") = false ∧ passes_local_validation (invoke (Delete "t1"))).
Proof.
  intros bad. split.
  - split; [reflexivity|]. exact (proj1 (local_rejection bad) eq_refl).
  - split; [reflexivity|]. exact (proj2 (local_rejection (Delete "t1")) eq_refl).
Defined.

(** A tag with a color. *)
Lemma KnowledgeTag_init_reads_fields_witness :
  let data : pydict :=
    {[ "id" := PStr "t1"; "name" := PStr "Research"; "color" := PStr "red" ]} in
  KnowledgeTag_init data = Ok (KnowledgeTag.mk "t1" "Research" (Some "red") None None None)
  ∧ data !! "id" = Some (PStr "t1").
Proof.
  intros data.
  assert (KnowledgeTag_init data
            = Ok (KnowledgeTag.mk "t1" "Research" (Some "red") None None None)) as Hinit
    by reflexivity.
  split; [exact Hinit|].
  exact (proj1 (KnowledgeTag_init_reads_fields data _ Hinit)).
Defined.

(** Null under "binding_count". *)
Lemma null_is_absent_witness :
  let data : pydict := {[ "id" := PStr "t1"; "name" := PStr "Research" ]} in
  ("binding_count" ∈ ["color"; "created_at"; "updated_at"; "binding_count"])
  ∧ KnowledgeTag_init (<["binding_count":=PNone]> data)
      = KnowledgeTag_init (delete "binding_count" data).
Proof.
  intros data.
  assert ("binding_count" ∈ ["color"; "created_at"; "updated_at"; "binding_count"]) as Hkey
    by (repeat constructor).
  split; [exact Hkey|].
  exact (proj1 (null_is_absent data "binding_count") Hkey).
Defined.

(** The mapping of the round trip, with two entries. *)
Lemma exact_document_round_trip_witness :
  let raw : pydict :=
    {[ "document_id" := PStr "d1";
       "metadata_list" :=
         PList [PDict {[ "id" := PStr "m1"; "value" := PStr "v1"; "name" := PStr "f1" ]};
                PDict {[ "id" := PStr "m2"; "value" := PStr "v2"; "name" := PStr "f2" ]}] ]} in
  let d := DocumentMetadata.mk "d1" [MetadataValue.mk "m1" "v1" "f1";
                                     MetadataValue.mk "m2" "v2" "f2"] in
  exact_document raw
  ∧ DocumentMetadata_init raw = Ok d
  ∧ DocumentMetadata_model_dump d = PDict raw.
Proof.
  intros raw d.
  assert (exact_document raw) as Hexact.
  { split; [by vm_compute|]. intros l [= <-]. repeat constructor; by vm_compute. }
  split; [exact Hexact|]. split; [reflexivity|].
  exact (exact_document_round_trip raw d Hexact eq_refl).
Defined.

(** A raw item with a comment that the schema does not declare. *)
Lemma raw_item_extra_key_dropped_witness :
  let m : pydict := {[ "document_id" := PStr "d1"; "metadata_list" := PList [] ]} in
  ("comment" ∉ DocumentMetadata_keys)
  ∧ TagsClient.update_document_metadata "ds1" [RawItem (<["comment":=PStr "draft"]> m)]
      = TagsClient.update_document_metadata "ds1" [RawItem m].
Proof.
  intros m.
  assert ("comment" ∉ DocumentMetadata_keys) as Hk.
  { unfold DocumentMetadata_keys. by rewrite not_elem_of_union, !not_elem_of_singleton. }
  split; [exact Hk|].
  exact (raw_item_extra_key_dropped "ds1" [] [] m "comment" (PStr "draft") Hk).
Defined.

(** A dataset id that is a prefix of the other. *)
Lemma dataset_paths_distinct_witness :
  "ds1" ≠ "ds1/tags"
  ∧ calls (run (always PNone) () (TagsClient.get_dataset_tags "ds1"))
      ≠ calls (run (always PNone) () (TagsClient.get_dataset_tags "ds1/tags")).
Proof.
  assert ("ds1" ≠ "ds1/tags") as Hne by discriminate.
  split; [exact Hne|].
  exact (proj1 (dataset_paths_distinct "ds1" "ds1/tags" (always PNone) () Hne)).
Defined.
